(** * FraudDetectionService: the location-telemetry fraud-scoring engine

    A shallow embedding of [FraudDetectionService] (the class with the
    per-sample guards, the exploration-rate check and the automation
    analyzer) and the properties its specification states about it.

    JavaScript numbers are IEEE 754 binary64 values, so they are embedded as
    Rocq's primitive floats: [+], [-], [*], [/], [<], [===] and [Math.abs]
    are the very operations the program runs, NaN and infinities included.
    The mutable fields of the class are an explicit state record threaded
    through a small state-and-log monad; the log holds the calls made to
    [AnalyticsService.trackSuspiciousActivity]. *)

From Stdlib Require Import String Floats ZArith List Bool Lia Uint63.
Import ListNotations.

(* Decimal literals denote the nearest binary64 value, as in JavaScript. *)
Set Warnings "-inexact-float".

(** ** JavaScript numbers and the [Math] functions the service calls *)

Module JS.

Definition number : Set := float.
Bind Scope float_scope with number.

(** [a > b], [a < b] and [a === b] on numbers. *)
Definition gt (a b : number) : bool := PrimFloat.ltb b a.
Definition lt (a b : number) : bool := PrimFloat.ltb a b.
Definition strict_eq (a b : number) : bool := PrimFloat.eqb a b.

Definition isNaN (a : number) : bool := negb (PrimFloat.eqb a a).

Definition is_neg_zero (a : number) : bool :=
  match PrimFloat.classify a with
  | NZero => true
  | _ => false
  end.

Definition Math_abs (a : number) : number := PrimFloat.abs a.

(** One step of [Math.max]: NaN is contagious and [+0] is above [-0]. *)
Definition max2 (a b : number) : number :=
  if isNaN a || isNaN b then nan
  else if PrimFloat.ltb a b then b
  else if PrimFloat.ltb b a then a
  else if is_neg_zero a then b else a.

(** One step of [Math.min]: NaN is contagious and [-0] is below [+0]. *)
Definition min2 (a b : number) : number :=
  if isNaN a || isNaN b then nan
  else if PrimFloat.ltb a b then a
  else if PrimFloat.ltb b a then b
  else if is_neg_zero a then a else b.

(** [Math.max(...xs)] and [Math.min(a, b)]. *)
Definition Math_max (xs : list number) : number :=
  fold_left max2 xs neg_infinity.
Definition Math_min (a b : number) : number :=
  fold_left min2 [a; b] infinity.

(** [Math.pow(x, 2)]: the square, rounded once. *)
Definition Math_pow_2 (x : number) : number := PrimFloat.mul x x.

(** An array length (or any small count) read as a number. *)
Definition of_nat (n : nat) : number :=
  PrimFloat.of_uint63 (Uint63.of_Z (Z.of_nat n)).

(** [xs.slice(-n)]: the last [n] elements, or all of them. *)
Definition slice_last {A : Type} (n : nat) (xs : list A) : list A :=
  skipn (length xs - n) xs.

(** [xs.slice(i, j)]. *)
Definition slice {A : Type} (i j : nat) (xs : list A) : list A :=
  firstn (j - i) (skipn i xs).

(** [xs.every((x, i) => p(x, i))], the callback also receiving the index. *)
Fixpoint every_from {A : Type} (p : A -> nat -> bool) (i : nat) (xs : list A)
  : bool :=
  match xs with
  | [] => true
  | x :: rest => p x i && every_from p (S i) rest
  end.
Definition every_indexed {A : Type} (p : A -> nat -> bool) (xs : list A)
  : bool :=
  every_from p 0 xs.

(** [s || fallback] on strings: the empty string is falsy. *)
Definition or_string (s fallback : string) : string :=
  match s with
  | EmptyString => fallback
  | _ => s
  end.

End JS.

Import JS.

(** ** [utils/coordinate]

    The service imports [haversine] from [../../utils/coordinate], which is
    not among the sources at hand.  The service is therefore embedded over an
    arbitrary distance function (a [Section] variable below); the definition
    here is one instance, used to run the service on concrete inputs. *)

Module Coordinate.

Local Open Scope float_scope.

Definition PI : number := 0x1.921fb54442d18p+1.
Definition EARTH_RADIUS_KM : number := 6371.

Definition toRad (deg : number) : number := deg * PI / 180.

(** Truncated power series, evaluated from the innermost term outwards:
    [k] counts the terms still to add, [n] is the index of the term. *)
Fixpoint sin_tail (k : nat) (n x2 : number) : number :=
  match k with
  | O => 1
  | S k' => 1 - x2 / ((2 * n) * (2 * n + 1)) * sin_tail k' (n + 1) x2
  end.
Definition Math_sin (x : number) : number := x * sin_tail 14 1 (x * x).

Fixpoint cos_tail (k : nat) (n x2 : number) : number :=
  match k with
  | O => 1
  | S k' => 1 - x2 / ((2 * n - 1) * (2 * n)) * cos_tail k' (n + 1) x2
  end.
Definition Math_cos (x : number) : number := cos_tail 14 1 (x * x).

Fixpoint atan_tail (k : nat) (n x2 : number) : number :=
  match k with
  | O => 1 / (2 * n - 1)
  | S k' => 1 / (2 * n - 1) - x2 * atan_tail k' (n + 1) x2
  end.

(** Arc tangent of a ratio [z >= 0]: fold [z > 1] back to [1/z], halve the
    angle three times, then sum the series. *)
Definition halve_angle (z : number) : number :=
  z / (1 + PrimFloat.sqrt (1 + z * z)).
Definition atan_small (z : number) : number :=
  let w := halve_angle (halve_angle (halve_angle z)) in
  8 * (w * atan_tail 12 1 (w * w)).
Definition atan_nonneg (z : number) : number :=
  if 1 <? z then PI / 2 - atan_small (1 / z) else atan_small z.

(** [Math.atan2(y, x)] for [y >= 0] and [x >= 0]. *)
Definition Math_atan2 (y x : number) : number :=
  if x =? 0 then (if y =? 0 then 0 else PI / 2) else atan_nonneg (y / x).

(** Modelled from the spec: the great-circle distance in kilometres between
    two latitude/longitude points given in degrees, by the haversine
    formula on a sphere of radius 6371 km ([utils/coordinate] is missing). *)
Definition haversine (lat1 lon1 lat2 lon2 : number) : number :=
  let dLat := toRad (lat2 - lat1) in
  let dLon := toRad (lon2 - lon1) in
  let sLat := Math_sin (dLat / 2) in
  let sLon := Math_sin (dLon / 2) in
  let a := sLat * sLat
           + Math_cos (toRad lat1) * Math_cos (toRad lat2) * sLon * sLon in
  let c := 2 * Math_atan2 (PrimFloat.sqrt a) (PrimFloat.sqrt (1 - a)) in
  EARTH_RADIUS_KM * c.

End Coordinate.

(** ** Data model *)

Record LocationPoint : Set := {
  latitude : number;
  longitude : number;
  timestamp : number;
  accuracy : number;
  speed : option number
}.

(** An entry of [tileExplorationHistory].  Its time is a reading of
    [Date.now()], an integral count of milliseconds far below 2^53, on which
    the service only subtracts constants and compares: it is embedded as an
    integer, where that arithmetic is exact as it is in binary64. *)
Module TileExploration.
Record t : Set := { tileId : string; timestamp : Z }.
End TileExploration.

(** The return value of [analyzeMovementPatterns]. *)
Record MovementPatterns : Set := {
  perfectTiming : bool;
  unnaturalPrecision : bool;
  repetitiveMovement : bool;
  averageInterval : number;
  intervalVariance : number
}.

(** [SuspiciousActivityResult]; its [details: any] field holds one of the
    object shapes the service builds.  The template literals
    [`${latitude},${longitude}`] are kept as the pair they format. *)
Inductive SuspiciousActivityResult : Set :=
| Build_Result (isSuspicious : bool) (reason : string) (riskScore : number)
               (details : Details)
with Details : Set :=
| null
| SuspiciousChecks (checks : list SuspiciousActivityResult)
| SpeedDetails (calculated_speed max_allowed_speed distance time_diff : number)
| AccuracyDetails (accuracy required_accuracy : number)
| DuplicateDetails (duplicate_count : nat) (coordinate : number * number)
| TeleportDetails (distance time_diff : number) (from to : number * number)
| ExplorationDetails (tilesPerMinute threshold : nat)
| PatternDetails (patterns : MovementPatterns).

Arguments Build_Result
  isSuspicious%_bool reason%_string riskScore%_float details.

Definition isSuspicious (r : SuspiciousActivityResult) : bool :=
  let '(Build_Result b _ _ _) := r in b.
Definition reason (r : SuspiciousActivityResult) : string :=
  let '(Build_Result _ s _ _) := r in s.
Definition riskScore (r : SuspiciousActivityResult) : number :=
  let '(Build_Result _ _ x _) := r in x.
Definition details (r : SuspiciousActivityResult) : Details :=
  let '(Build_Result _ _ _ d) := r in d.

(** A call of [AnalyticsService.trackSuspiciousActivity(type, location,
    details)], the only effect of the service besides its own fields. *)
Inductive TrackDetails : Set :=
| LocationSpoofing (failed_checks : list string)
                   (location_history_count : nat) (primary_reason : string)
| RapidExploration (tiles_per_minute threshold : nat)
                   (recent_tiles : list string).

Record TrackedActivity : Set := {
  suspiciousType : string;
  tracked_latitude : number;
  tracked_longitude : number;
  tracked_accuracy : number;
  tracked_speed : option number;
  tracked_details : TrackDetails
}.

(** The mutable fields of the class. *)
Record FraudDetectionService : Set := {
  locationHistory : list LocationPoint;
  tileExplorationHistory : list TileExploration.t
}.

(** [new FraudDetectionService()]. *)
Definition fresh : FraudDetectionService :=
  {| locationHistory := []; tileExplorationHistory := [] |}.

Definition MAX_HISTORY : nat := 100.
Definition MAX_HUMAN_SPEED : number := 50%float.
Definition MIN_LOCATION_ACCURACY : number := 100%float.
Definition RAPID_EXPLORATION_THRESHOLD : nat := 8.

(** ** Methods: state passing with a log of analytics calls *)

Definition Method (A : Type) : Type :=
  FraudDetectionService -> A * FraudDetectionService * list TrackedActivity.

Definition ret {A : Type} (a : A) : Method A := fun self => (a, self, []).

Definition bind {A B : Type} (m : Method A) (k : A -> Method B) : Method B :=
  fun self =>
    let '(a, self1, log1) := m self in
    let '(b, self2, log2) := k a self1 in
    (b, self2, log1 ++ log2).

Definition this : Method FraudDetectionService := fun self => (self, self, []).

Definition set_locationHistory (h : list LocationPoint) : Method unit :=
  fun self =>
    (tt,
     {| locationHistory := h;
        tileExplorationHistory := tileExplorationHistory self |},
     []).

Definition set_tileExplorationHistory (h : list TileExploration.t)
  : Method unit :=
  fun self =>
    (tt, {| locationHistory := locationHistory self;
            tileExplorationHistory := h |}, []).

Definition trackSuspiciousActivity (a : TrackedActivity) : Method unit :=
  fun self => (tt, self, [a]).

Declare Scope method_scope.
Delimit Scope method_scope with method.
Notation "x <- m ;; k" := (bind m (fun x => k))
  (at level 61, m at next level, right associativity) : method_scope.
Notation "m ;; k" := (bind m (fun _ => k))
  (at level 61, right associativity) : method_scope.

(** Running a method: its result, the service afterwards, what it logged. *)
Definition result {A : Type} (m : Method A) (self : FraudDetectionService)
  : A :=
  fst (fst (m self)).
Definition after {A : Type} (m : Method A) (self : FraudDetectionService)
  : FraudDetectionService :=
  snd (fst (m self)).
Definition tracked {A : Type} (m : Method A) (self : FraudDetectionService)
  : list TrackedActivity :=
  snd (m self).

(** ** The service *)

Section Service.

(** [haversine(lat1, lon1, lat2, lon2)], in kilometres. *)
Variable haversine : number -> number -> number -> number -> number.

Local Open Scope float_scope.
Local Open Scope method_scope.

(** [this.locationHistory[this.locationHistory.length - 1]]; every caller
    has checked that the array is not empty, so the default is never read. *)
Definition lastLocationOf (self : FraudDetectionService)
           (newLocation : LocationPoint) : LocationPoint :=
  nth (length (locationHistory self) - 1) (locationHistory self) newLocation.

Definition timeDiffOf (newLocation lastLocation : LocationPoint) : number :=
  (timestamp newLocation - timestamp lastLocation) / 1000.

Definition checkImpossibleSpeed (self : FraudDetectionService)
           (newLocation : LocationPoint) : SuspiciousActivityResult :=
  if (length (locationHistory self) =? 0)%nat then
    Build_Result false "no_previous_location" 0 null
  else
    let lastLocation := lastLocationOf self newLocation in
    let distance :=
      haversine (latitude lastLocation) (longitude lastLocation)
                (latitude newLocation) (longitude newLocation) in
    let timeDiff := timeDiffOf newLocation lastLocation in
    let speed := (distance * 1000) / timeDiff * 3.6 in
    if gt speed MAX_HUMAN_SPEED && gt timeDiff 5 then
      Build_Result true "impossible_speed"
        (Math_min 90 (50 + (speed - MAX_HUMAN_SPEED)))
        (SpeedDetails speed MAX_HUMAN_SPEED distance timeDiff)
    else
      Build_Result false "speed_normal" 0 null.

Definition checkLocationAccuracy (location : LocationPoint)
  : SuspiciousActivityResult :=
  if gt (accuracy location) MIN_LOCATION_ACCURACY then
    Build_Result true "poor_accuracy" 30
      (AccuracyDetails (accuracy location) MIN_LOCATION_ACCURACY)
  else
    Build_Result false "accuracy_good" 0 null.

(** The predicate of the [filter] in [checkMovementPattern]. *)
Definition sameCoordinates (newLocation loc : LocationPoint) : bool :=
  lt (Math_abs (latitude loc - latitude newLocation)) 0.000001
  && lt (Math_abs (longitude loc - longitude newLocation)) 0.000001.

Definition checkMovementPattern (self : FraudDetectionService)
           (newLocation : LocationPoint) : SuspiciousActivityResult :=
  if (length (locationHistory self) <? 5)%nat then
    Build_Result false "insufficient_pattern_data" 0 null
  else
    let duplicates :=
      filter (sameCoordinates newLocation) (locationHistory self) in
    if (3 <? length duplicates)%nat then
      Build_Result true "identical_coordinates" 70
        (DuplicateDetails (length duplicates)
                          (latitude newLocation, longitude newLocation))
    else
      Build_Result false "pattern_normal" 0 null.

Definition checkTeleportation (self : FraudDetectionService)
           (newLocation : LocationPoint) : SuspiciousActivityResult :=
  if (length (locationHistory self) =? 0)%nat then
    Build_Result false "no_previous_location" 0 null
  else
    let lastLocation := lastLocationOf self newLocation in
    let distance :=
      haversine (latitude lastLocation) (longitude lastLocation)
                (latitude newLocation) (longitude newLocation) in
    let timeDiff := timeDiffOf newLocation lastLocation in
    if gt distance 1 && lt timeDiff 2 then
      Build_Result true "teleportation" 95
        (TeleportDetails distance timeDiff
           (latitude lastLocation, longitude lastLocation)
           (latitude newLocation, longitude newLocation))
    else
      Build_Result false "movement_normal" 0 null.

(** [this.locationHistory.push(location)], then one [shift()] when the array
    has grown beyond [MAX_HISTORY]. *)
Definition addLocationToHistory (location : LocationPoint) : Method unit :=
  self <- this ;;
  let pushed := locationHistory self ++ [location] in
  if (MAX_HISTORY <? length pushed)%nat
  then set_locationHistory (tl pushed)
  else set_locationHistory pushed.

Definition getLocationHistory : Method (list LocationPoint) :=
  self <- this ;; ret (locationHistory self).

Definition clearHistory : Method unit :=
  set_locationHistory [] ;; set_tileExplorationHistory [].

(** The four checks of [checkLocationValidity], in the order the method
    runs them. *)
Definition runChecks (self : FraudDetectionService)
           (newLocation : LocationPoint) : list SuspiciousActivityResult :=
  let speedCheck := checkImpossibleSpeed self newLocation in
  let accuracyCheck := checkLocationAccuracy newLocation in
  let patternCheck := checkMovementPattern self newLocation in
  let teleportCheck := checkTeleportation self newLocation in
  [speedCheck; accuracyCheck; patternCheck; teleportCheck].

Definition checkLocationValidity (newLocation : LocationPoint)
  : Method SuspiciousActivityResult :=
  addLocationToHistory newLocation ;;
  self <- this ;;
  let suspiciousChecks := filter isSuspicious (runChecks self newLocation) in
  if (0 <? length suspiciousChecks)%nat then
    let maxRiskScore := Math_max (map riskScore suspiciousChecks) in
    let primaryReason :=
      match find (fun check => strict_eq (riskScore check) maxRiskScore)
                 suspiciousChecks with
      | Some check => or_string (reason check) "unknown"
      | None => "unknown"%string
      end in
    trackSuspiciousActivity
      {| suspiciousType := "location_spoofing";
         tracked_latitude := latitude newLocation;
         tracked_longitude := longitude newLocation;
         tracked_accuracy := accuracy newLocation;
         tracked_speed := speed newLocation;
         tracked_details :=
           LocationSpoofing (map reason suspiciousChecks)
                            (length (locationHistory self)) primaryReason |} ;;
    ret (Build_Result true primaryReason maxRiskScore
                      (SuspiciousChecks suspiciousChecks))
  else
    ret (Build_Result false "location_valid" 0 null).

(** [checkExplorationRate(tileId)]; [now] is the value [Date.now()] returns
    in this call. *)
Definition checkExplorationRate (now : Z) (tileId : string)
  : Method SuspiciousActivityResult :=
  self <- this ;;
  let pushed :=
    tileExplorationHistory self
    ++ [ {| TileExploration.tileId := tileId;
            TileExploration.timestamp := now |} ] in
  let oneHourAgo := (now - 60 * 60 * 1000)%Z in
  let kept :=
    filter (fun record => (oneHourAgo <? TileExploration.timestamp record)%Z)
           pushed in
  set_tileExplorationHistory kept ;;
  let oneMinuteAgo := (now - 60 * 1000)%Z in
  let recentExplorations :=
    filter (fun record => (oneMinuteAgo <? TileExploration.timestamp record)%Z)
           kept in
  if (RAPID_EXPLORATION_THRESHOLD <? length recentExplorations)%nat then
    trackSuspiciousActivity
      {| suspiciousType := "rapid_exploration";
         tracked_latitude := 0;
         tracked_longitude := 0;
         tracked_accuracy := 0;
         tracked_speed := None;
         tracked_details :=
           RapidExploration
             (length recentExplorations) RAPID_EXPLORATION_THRESHOLD
             (map TileExploration.tileId recentExplorations) |} ;;
    ret (Build_Result true "rapid_exploration" 85
           (ExplorationDetails (length recentExplorations)
                               RAPID_EXPLORATION_THRESHOLD))
  else
    ret (Build_Result false "exploration_rate_normal" 0 null).

(** The two loops of [analyzeMovementPatterns] over consecutive pairs:
    [f(xs[i-1], xs[i])] for [i = 1 .. xs.length - 1]. *)
Fixpoint consecutive {A B : Type} (f : A -> A -> B) (xs : list A) : list B :=
  match xs with
  | previous :: (current :: _) as rest =>
      f previous current :: consecutive f rest
  | _ => []
  end.

Definition detectRepetitivePattern (locations : list LocationPoint) : bool :=
  if (length locations <? 6)%nat then false
  else
    let pattern := slice 0 3 locations in
    let nextPattern := slice 3 6 locations in
    every_indexed
      (fun loc i =>
         match nth_error nextPattern i with
         | Some nextLoc =>
             lt (Math_abs (latitude loc - latitude nextLoc)) 0.0001
             && lt (Math_abs (longitude loc - longitude nextLoc)) 0.0001
         | None => false
         end)
      pattern.

Definition analyzeMovementPatterns (self : FraudDetectionService)
  : MovementPatterns :=
  let recentLocations := slice_last 20 (locationHistory self) in
  let timeIntervals :=
    consecutive (fun previous current =>
                   timestamp current - timestamp previous)
                recentLocations in
  let avgInterval :=
    fold_left (fun a b => a + b) timeIntervals 0
    / of_nat (length timeIntervals) in
  let intervalVariance :=
    fold_left (fun sum interval => sum + Math_pow_2 (interval - avgInterval))
              timeIntervals 0
    / of_nat (length timeIntervals) in
  let distances :=
    consecutive (fun previous current =>
                   haversine (latitude previous) (longitude previous)
                             (latitude current) (longitude current))
                recentLocations in
  {| perfectTiming := lt intervalVariance 100;
     unnaturalPrecision := forallb (fun d => gt d 0 && lt d 0.001) distances;
     repetitiveMovement := detectRepetitivePattern recentLocations;
     averageInterval := avgInterval;
     intervalVariance := intervalVariance |}.

Definition checkAutomationPattern : Method SuspiciousActivityResult :=
  self <- this ;;
  if (length (locationHistory self) <? 10)%nat then
    ret (Build_Result false "insufficient_data" 0 null)
  else
    let patterns := analyzeMovementPatterns self in
    if perfectTiming patterns || unnaturalPrecision patterns
       || repetitiveMovement patterns
    then ret (Build_Result true "automation_detected" 95
                           (PatternDetails patterns))
    else ret (Build_Result false "human_behavior" 0 (PatternDetails patterns)).

End Service.

(** Calling a method once per element of a list, in order. *)
Fixpoint forEach {A B : Type} (f : A -> Method B) (xs : list A) : Method unit :=
  match xs with
  | [] => ret tt
  | x :: rest => bind (f x) (fun _ => forEach f rest)
  end.

(** The named properties of a [details] object, as [Object.entries] would
    list them (an array of checks and [null] have none). *)
Inductive Value : Set :=
| VNumber (x : number)
| VCount (n : nat)
| VFlag (b : bool)
| VCoordinate (c : number * number)
| VStrings (l : list string).

Definition entries (d : Details) : list (string * Value) :=
  match d with
  | null => []
  | SuspiciousChecks _ => []
  | SpeedDetails s m d t =>
      [("calculated_speed", VNumber s); ("max_allowed_speed", VNumber m);
       ("distance", VNumber d); ("time_diff", VNumber t)]
  | AccuracyDetails a r =>
      [("accuracy", VNumber a); ("required_accuracy", VNumber r)]
  | DuplicateDetails n c =>
      [("duplicate_count", VCount n); ("coordinate", VCoordinate c)]
  | TeleportDetails d t a b =>
      [("distance", VNumber d); ("time_diff", VNumber t);
       ("from", VCoordinate a); ("to", VCoordinate b)]
  | ExplorationDetails n t =>
      [("tilesPerMinute", VCount n); ("threshold", VCount t)]
  | PatternDetails p =>
      [("perfectTiming", VFlag (perfectTiming p));
       ("unnaturalPrecision", VFlag (unnaturalPrecision p));
       ("repetitiveMovement", VFlag (repetitiveMovement p));
       ("averageInterval", VNumber (averageInterval p));
       ("intervalVariance", VNumber (intervalVariance p))]
  end%string.

(** ** Vocabulary of the specification *)

(** [m] is the maximum of [xs]: one of them, and none is above it. *)
Definition is_maximum (m : number) (xs : list number) : Prop :=
  In m xs /\ Forall (fun x => PrimFloat.leb x m = true) xs.

(** [winner] is the first of [checks], in their order, whose score is [m]. *)
Definition first_with_score (m : number)
           (checks : list SuspiciousActivityResult)
           (winner : SuspiciousActivityResult) : Prop :=
  exists earlier later,
    checks = earlier ++ winner :: later
    /\ strict_eq (riskScore winner) m = true
    /\ Forall (fun c => strict_eq (riskScore c) m = false) earlier.

(** A risk score within [0, 100], and one that is moreover an integer. *)
Definition in_0_100 (x : number) : bool :=
  PrimFloat.leb 0 x && PrimFloat.leb x 100.
Definition integer_in_0_100 (x : number) : bool :=
  existsb (fun n => strict_eq x (of_nat n)) (seq 0 101).

(** The log entry a call [(now, tileId)] records, and the test that an entry
    is newer than [now - window]. *)
Definition tileRecord (call : Z * string) : TileExploration.t :=
  {| TileExploration.tileId := snd call;
     TileExploration.timestamp := fst call |}.
Definition withinLast (window now : Z) (r : TileExploration.t) : bool :=
  (now - window <? TileExploration.timestamp r)%Z.

(** The sign of a binary64 value, on its specification-level image. *)
Definition nonneg (x : spec_float) : Prop :=
  match x with
  | S754_zero false | S754_infinity false | S754_finite false _ _ => True
  | _ => False
  end.

(** A sample with the given position and time, reported with an accuracy of
    10 m; used to build concrete sessions. *)
Definition sampleAt (lat lon t : number) : LocationPoint :=
  {| latitude := lat; longitude := lon; timestamp := t;
     accuracy := 10%float; speed := None |}.
Arguments sampleAt (lat lon t)%_float.


(** AutomationAnalyzer in the specification's words. *)
Section AutomationSpec.

Variable haversine : number -> number -> number -> number -> number.

Local Open Scope float_scope.

(** The most recent [n] samples, or all of them when there are fewer. *)
Definition spec_mostRecent (n : nat) (history : list LocationPoint)
  : list LocationPoint :=
  rev (firstn n (rev history)).

Definition spec_sample (samples : list LocationPoint) (i : nat)
  : LocationPoint :=
  nth i samples (sampleAt 0 0 0).

(** [timeIntervals[i] = samples[i].t - samples[i-1].t], [i = 1 ..]. *)
Definition spec_timeIntervals (samples : list LocationPoint) : list number :=
  map (fun i => timestamp (spec_sample samples i)
                - timestamp (spec_sample samples (i - 1)))
      (seq 1 (length samples - 1)).

Definition spec_mean (xs : list number) : number :=
  fold_left PrimFloat.add xs 0 / of_nat (length xs).

Definition spec_avgInterval (samples : list LocationPoint) : number :=
  spec_mean (spec_timeIntervals samples).

Definition spec_intervalVariance (samples : list LocationPoint) : number :=
  spec_mean (map (fun interval =>
                    Math_pow_2 (interval - spec_avgInterval samples))
                 (spec_timeIntervals samples)).

(** [distances[i] = haversine(samples[i-1], samples[i])], [i = 1 ..]. *)
Definition spec_distances (samples : list LocationPoint) : list number :=
  map (fun i => haversine (latitude (spec_sample samples (i - 1)))
                          (longitude (spec_sample samples (i - 1)))
                          (latitude (spec_sample samples i))
                          (longitude (spec_sample samples i)))
      (seq 1 (length samples - 1)).

Definition spec_perfectTiming (samples : list LocationPoint) : bool :=
  spec_intervalVariance samples <? 100.

Definition spec_unnaturalPrecision (samples : list LocationPoint) : bool :=
  forallb (fun d => (0 <? d) && (d <? 0.001)) (spec_distances samples).

(** Each of the first three samples matches, within 1e-4 degrees on both
    axes, the sample three places further. *)
Definition spec_repetitiveMovement (samples : list LocationPoint) : bool :=
  forallb
    (fun i =>
       match nth_error samples i, nth_error samples (3 + i) with
       | Some a, Some b =>
           (abs (latitude a - latitude b) <? 0.0001)
           && (abs (longitude a - longitude b) <? 0.0001)
       | _, _ => false
       end)
    [0; 1; 2]%nat.

Definition spec_patterns (samples : list LocationPoint) : MovementPatterns :=
  {| perfectTiming := spec_perfectTiming samples;
     unnaturalPrecision := spec_unnaturalPrecision samples;
     repetitiveMovement := spec_repetitiveMovement samples;
     averageInterval := spec_avgInterval samples;
     intervalVariance := spec_intervalVariance samples |}.

End AutomationSpec.

(** ** The service as its clients use it *)

(** A number that is neither NaN nor an infinity. *)
Definition isFiniteNumber (x : number) : bool :=
  PrimFloat.ltb (PrimFloat.abs x) infinity.


(** The public methods of the service, as calls a client can make. *)
Inductive Call : Set :=
| CheckLocationValidity (newLocation : LocationPoint)
| CheckExplorationRate (now : Z) (tileId : string)
| CheckAutomationPattern
| GetLocationHistory
| ClearHistory.

(** The samples submitted by [calls] since the last [clearHistory], after
    [submitted] had been. *)
Definition samplesSinceClear (calls : list Call)
           (submitted : list LocationPoint) : list LocationPoint :=
  fold_left (fun samples call =>
               match call with
               | CheckLocationValidity newLocation => samples ++ [newLocation]
               | ClearHistory => []
               | _ => samples
               end)
            calls submitted.

(** [x || fallback] on an optional number: [undefined], [0], [-0] and NaN
    are falsy. *)
Definition or_number (x : option number) (fallback : number) : number :=
  match x with
  | None => fallback
  | Some v => if isNaN v || PrimFloat.eqb v 0 then fallback else v
  end.

Section Clients.

Variable haversine : number -> number -> number -> number -> number.

Local Open Scope method_scope.

Definition perform (call : Call) : Method unit :=
  match call with
  | CheckLocationValidity newLocation =>
      checkLocationValidity haversine newLocation ;; ret tt
  | CheckExplorationRate now tileId =>
      checkExplorationRate now tileId ;; ret tt
  | CheckAutomationPattern => checkAutomationPattern haversine ;; ret tt
  | GetLocationHistory => getLocationHistory ;; ret tt
  | ClearHistory => clearHistory
  end.

(** The anti-cheat step that opens [recordLocationData] in [useLocalDB]: the
    location point it builds ([now] is the value [Date.now()] returns), the
    check, and whether the early [return] that rejects the location is
    taken.  The method returns the check and that decision. *)
Definition recordLocationData_fraudCheck (now lat lng : number)
           (accuracy speed : option number)
  : Method (SuspiciousActivityResult * bool) :=
  let locationPoint :=
    {| latitude := lat;
       longitude := lng;
       timestamp := now;
       accuracy := or_number accuracy 50;
       speed := speed |} in
  fraudCheck <- checkLocationValidity haversine locationPoint ;;
  ret (fraudCheck, isSuspicious fraudCheck && gt (riskScore fraudCheck) 80).

End Clients.

(** ** Values of type [any]

    The values that reach the code embedded below through properties typed
    [any]: the primitives, and arrays of strings. *)

Inductive JSValue : Set :=
| JSUndefined
| JSNull
| JSNumber (x : number)
| JSBoolean (b : bool)
| JSString (s : string)
| JSStrings (items : list string)
| JSBuiltin (name : string).

(** A plain object (an object literal, or one made by [JSON.parse]), as its
    own properties in order; the objects built here never repeat a key. *)
Definition JSObject : Set := list (string * JSValue).

(** The names of the properties a plain object inherits from
    [Object.prototype]: those ECMAScript defines, Annex B included.  The
    repository adds none.  Their values are functions, and, for [__proto__],
    [Object.prototype] itself: [JSBuiltin name] stands for the one found
    under [name]. *)
Definition Object_prototype : list string :=
  ["constructor"; "hasOwnProperty"; "isPrototypeOf"; "propertyIsEnumerable";
   "toLocaleString"; "toString"; "valueOf"; "__proto__";
   "__defineGetter__"; "__defineSetter__"; "__lookupGetter__";
   "__lookupSetter__"]%string.

Definition inherited (key : string) : JSValue :=
  if existsb (String.eqb key) Object_prototype then JSBuiltin key
  else JSUndefined.

(** [object[key]]: the object's own property of that name if it has one,
    otherwise the one it inherits, otherwise [undefined]. *)
Fixpoint getProperty (object : JSObject) (key : string) : JSValue :=
  match object with
  | [] => inherited key
  | (k, v) :: rest => if String.eqb k key then v else getProperty rest key
  end.

Section Conversions.

Local Open Scope float_scope.

(** The conversions between strings and numbers ([Number(s)] and
    [String(x)]) are the runtime's, and so is the text [String(f)] gives for
    a built-in [f], by its name; the code is embedded over them. *)
Variable StringToNumber : string -> number.
Variable NumberToString : number -> string.
Variable BuiltinToString : string -> string.

Definition ToBoolean (v : JSValue) : bool :=
  match v with
  | JSUndefined | JSNull => false
  | JSNumber x => negb (isNaN x || PrimFloat.eqb x 0)
  | JSBoolean b => b
  | JSString s => negb (String.eqb s "")
  | JSStrings _ => true
  | JSBuiltin _ => true
  end.

(** The text of a built-in function, or of [Object.prototype], is not a
    numeric literal: such a value converts to NaN. *)
Definition ToNumber (v : JSValue) : number :=
  match v with
  | JSUndefined => nan
  | JSNull => 0
  | JSNumber x => x
  | JSBoolean b => if b then 1 else 0
  | JSString s => StringToNumber s
  | JSStrings items => StringToNumber (String.concat "," items)
  | JSBuiltin _ => nan
  end.

Definition ToString (v : JSValue) : string :=
  match v with
  | JSUndefined => "undefined"
  | JSNull => "null"
  | JSNumber x => NumberToString x
  | JSBoolean b => if b then "true" else "false"
  | JSString s => s
  | JSStrings items => String.concat "," items
  | JSBuiltin name => BuiltinToString name
  end.

(** [a === b]; two arrays are never the same object here, and two built-ins
    are the same object when they are inherited under the same name. *)
Definition strictEquals (a b : JSValue) : bool :=
  match a, b with
  | JSUndefined, JSUndefined => true
  | JSNull, JSNull => true
  | JSNumber x, JSNumber y => PrimFloat.eqb x y
  | JSBoolean x, JSBoolean y => Bool.eqb x y
  | JSString x, JSString y => String.eqb x y
  | JSBuiltin x, JSBuiltin y => String.eqb x y
  | _, _ => false
  end.

End Conversions.

(** ** AnalyticsService *)

Module Analytics.

(** The [details] object [FraudDetectionService] hands to
    [trackSuspiciousActivity], property by property. *)
Definition detailsObject (d : TrackDetails) : JSObject :=
  match d with
  | LocationSpoofing failed_checks location_history_count primary_reason =>
      [("failed_checks", JSStrings failed_checks);
       ("location_history_count", JSNumber (of_nat location_history_count));
       ("primary_reason", JSString primary_reason)]
  | RapidExploration tiles_per_minute threshold recent_tiles =>
      [("tiles_per_minute", JSNumber (of_nat tiles_per_minute));
       ("threshold", JSNumber (of_nat threshold));
       ("recent_tiles", JSStrings recent_tiles)]
  end%string.

Section RiskScore.

Variable StringToNumber : string -> number.

Local Open Scope float_scope.

Definition calculateRiskScore (suspiciousType : string) (details : JSObject)
  : number :=
  let score : number :=
    if String.eqb suspiciousType "location_spoofing" then
      if ToBoolean (getProperty details "impossibleSpeed") then 80 else 60
    else if String.eqb suspiciousType "rapid_exploration" then
      if gt (ToNumber StringToNumber (getProperty details "tilesPerMinute")) 10
      then 90 else 70
    else if String.eqb suspiciousType "automation_detected" then 95
    else 50 in
  Math_min score 100.

(** The [risk_score] that [trackSuspiciousActivity] puts in the metadata of
    the event it sends for a call made by [FraudDetectionService]. *)
Definition risk_score (activity : TrackedActivity) : number :=
  calculateRiskScore (suspiciousType activity)
                     (detailsObject (tracked_details activity)).

End RiskScore.

(** An event of the queue: [retry_count] is the property of its metadata that
    [flushEvents] writes; [body] is all the rest of the event. *)
Record GameEvent (Body : Type) : Type := {
  body : Body;
  retry_count : option nat
}.
Arguments body {Body} _.
Arguments retry_count {Body} _.

Definition BATCH_SIZE : nat := 50.
Definition MAX_QUEUE_SIZE : nat := 500.

Section Queue.

Variable Body : Type.

(** [eventQueue.splice(0, n)]: the elements removed, and the array left. *)
Definition splice_front (n : nat) (queue : list (GameEvent Body))
  : list (GameEvent Body) * list (GameEvent Body) :=
  (firstn n queue, skipn n queue).

(** [flushEvents] up to its [await]: nothing on an empty queue, else the
    batch taken from the front and passed to [sendEventsBatch]. *)
Definition flushEvents_take (queue : list (GameEvent Body))
  : option (list (GameEvent Body)) * list (GameEvent Body) :=
  if length queue =? 0 then (None, queue)
  else let '(eventsToSend, rest) := splice_front BATCH_SIZE queue in
       (Some eventsToSend, rest).

(** [addEvent]: the events discarded by the overflow trim, the batch handed
    to [sendEventsBatch] if any, and the queue afterwards. *)
Definition addEvent (event : GameEvent Body) (queue : list (GameEvent Body))
  : list (GameEvent Body) * option (list (GameEvent Body))
    * list (GameEvent Body) :=
  let pushed := queue ++ [event] in
  let '(discarded, trimmed) :=
    if MAX_QUEUE_SIZE <? length pushed
    then splice_front BATCH_SIZE pushed
    else ([], pushed) in
  if BATCH_SIZE <=? length trimmed
  then let '(batch, rest) := flushEvents_take trimmed in
       (discarded, batch, rest)
  else (discarded, None, trimmed).

(** The test [!retry_count || retry_count < 3] and the new count
    [(retry_count || 0) + 1]. *)
Definition retriable (event : GameEvent Body) : bool :=
  match retry_count event with
  | None => true
  | Some n => (n =? 0) || (n <? 3)
  end.
Definition retried (event : GameEvent Body) : GameEvent Body :=
  {| body := body event;
     retry_count :=
       Some (match retry_count event with None => 0 | Some n => n end + 1) |}.

(** The [catch] block of [flushEvents], run on the queue as it is when the
    send fails: each event of the batch, in turn, is put back at the front
    unless it has been retried three times. *)
Definition flushEvents_failed (eventsToSend queue : list (GameEvent Body))
  : list (GameEvent Body) :=
  fold_left (fun queue event =>
               if retriable event then retried event :: queue else queue)
            eventsToSend queue.

End Queue.

End Analytics.

(** ** ABTestService *)

Module ABTest.

(** A [Map] with string keys, as its entries in insertion order. *)
Definition StringMap (V : Type) : Type := list (string * V).

Fixpoint mapGet {V : Type} (m : StringMap V) (key : string) : option V :=
  match m with
  | [] => None
  | (k, v) :: rest => if String.eqb k key then Some v else mapGet rest key
  end.

(** [m.set(key, value)]: a known key keeps its place, a new one goes last. *)
Fixpoint mapSet {V : Type} (m : StringMap V) (key : string) (value : V)
  : StringMap V :=
  match m with
  | [] => [(key, value)]
  | (k, v) :: rest =>
      if String.eqb k key then (k, value) :: rest
      else (k, v) :: mapSet rest key value
  end.

Record ABTestVariant : Set := {
  variant_id : string;
  variant_name : string;
  traffic_weight : number;
  config : option JSObject
}.

Record TargetingRule : Set := {
  attribute : string;
  operator : string;
  value : JSValue
}.

Record ABTestConfig : Set := {
  test_name : string;
  test_id : string;
  variants : list ABTestVariant;
  targeting_rules : option (list TargetingRule);
  traffic_allocation : number;
  start_date : string;
  end_date : string;
  status : string;
  primary_metric : string;
  secondary_metrics : option (list string)
}.

Module Assignment.
Record UserAssignment : Set := {
  test_name : string;
  variant_id : string;
  variant_name : string;
  assignment_timestamp : number;
  config : option JSObject
}.
End Assignment.

(** The fields of the class. *)
Record ABTestService : Type := {
  userAssignments : StringMap Assignment.UserAssignment;
  activeTests : StringMap ABTestConfig;
  userAttributes : JSObject;
  initialized : bool
}.

(** What a method does besides changing the fields. *)
Inductive Effect : Type :=
| Warn (message : string)
| SaveUserAssignments (assignments : StringMap Assignment.UserAssignment)
| TrackUserAction (actionType : string) (metadata : JSObject)
| SendConversionEvent (event : JSObject)
| RemoveStoredAssignments.

(** A 32-bit two's complement integer, as [x | 0] makes one of an integer. *)
Definition ToInt32 (z : Z) : Z := ((z + 2 ^ 31) mod 2 ^ 32 - 2 ^ 31)%Z.

(** [str.charCodeAt(i)] for each [i]; the characters of an embedded string
    are char codes below 256. *)
Definition charCodes (str : string) : list Z :=
  map (fun c => Z.of_nat (Ascii.nat_of_ascii c)) (list_ascii_of_string str).

(** One turn of the loop of [hashUserId]:
    [hash = ((hash << 5) - hash) + char; hash = hash & hash]. *)
Definition hashStep (hash char : Z) : Z :=
  let hash := (ToInt32 (Z.shiftl (ToInt32 hash) 5) - hash + char)%Z in
  Z.land (ToInt32 hash) (ToInt32 hash).

Definition hashCodes (codes : list Z) : Z :=
  Z.abs (fold_left hashStep codes 0%Z).

Definition hashUserId (userId testName : string) : Z :=
  hashCodes (charCodes (userId ++ "_" ++ testName)).

(** An integer below 2^63 in absolute value, as a number. *)
Definition number_of_Z (z : Z) : number :=
  if (z <? 0)%Z
  then PrimFloat.opp (PrimFloat.of_uint63 (Uint63.of_Z (- z)))
  else PrimFloat.of_uint63 (Uint63.of_Z z).

(** The loop of [assignVariant], from a cumulative weight on. *)
Fixpoint assignFrom (cumulativeWeight hashBucket : number)
         (variants : list ABTestVariant) : option ABTestVariant :=
  match variants with
  | [] => None
  | variant :: rest =>
      let cumulativeWeight :=
        PrimFloat.add cumulativeWeight
                      (PrimFloat.mul (traffic_weight variant) 1000) in
      if lt hashBucket cumulativeWeight then Some variant
      else assignFrom cumulativeWeight hashBucket rest
  end.

Definition assignVariant (variants : list ABTestVariant) (userHash : Z)
  : option ABTestVariant :=
  let hashBucket := Z.rem userHash 1000 in
  assignFrom 0 (number_of_Z hashBucket) variants.

(** [s.includes(search)]. *)
Definition includes (s search : string) : bool :=
  match String.index 0 search s with
  | Some _ => true
  | None => false
  end.

Section Service.

Local Open Scope string_scope.

Variable StringToNumber : string -> number.
Variable NumberToString : number -> string.
Variable BuiltinToString : string -> string.

(** [new Date(s).getTime()], NaN for a string that is not a date. *)
Variable parseDate : string -> number.

(** [this.userAttributes.user_id || 'anonymous']. *)
Definition getUserId (self : ABTestService) : JSValue :=
  let user_id := getProperty (userAttributes self) "user_id" in
  if ToBoolean user_id then user_id else JSString "anonymous".

Definition matchesRule (self : ABTestService) (rule : TargetingRule) : bool :=
  let userValue := getProperty (userAttributes self) (attribute rule) in
  if String.eqb (operator rule) "equals" then
    strictEquals userValue (value rule)
  else if String.eqb (operator rule) "not_equals" then
    negb (strictEquals userValue (value rule))
  else if String.eqb (operator rule) "contains" then
    match userValue with
    | JSString s =>
        includes s (ToString NumberToString BuiltinToString (value rule))
    | _ => false
    end
  else if String.eqb (operator rule) "greater_than" then
    match userValue with
    | JSNumber x => gt x (ToNumber StringToNumber (value rule))
    | _ => false
    end
  else if String.eqb (operator rule) "less_than" then
    match userValue with
    | JSNumber x => lt x (ToNumber StringToNumber (value rule))
    | _ => false
    end
  else false.

Definition matchesTargetingRules (self : ABTestService)
           (rules : option (list TargetingRule)) : bool :=
  match rules with
  | None => true
  | Some rules =>
      if (length rules =? 0)%nat then true
      else forallb (matchesRule self) rules
  end.

(** [getVariant(testName)]; [now] is the value [new Date().getTime()]
    returns in this call. *)
Definition getVariant (now : number) (testName : string)
           (self : ABTestService)
  : option Assignment.UserAssignment * ABTestService * list Effect :=
  if negb (initialized self) then
    (None, self, [Warn "A/B testing service not initialized"])
  else
    match mapGet (userAssignments self) testName with
    | Some existingAssignment => (Some existingAssignment, self, [])
    | None =>
        match mapGet (activeTests self) testName with
        | None =>
            (None, self,
             [Warn ("Test " ++ testName ++ " not found or not active")])
        | Some testConfig =>
            let startTime := parseDate (start_date testConfig) in
            let endTime := parseDate (end_date testConfig) in
            if lt now startTime || gt now endTime
               || negb (String.eqb (status testConfig) "active")
            then (None, self, [])
            else if negb (matchesTargetingRules
                            self (targeting_rules testConfig))
            then (None, self, [])
            else
              let userId :=
                ToString NumberToString BuiltinToString (getUserId self) in
              let userHash := hashUserId userId testName in
              let trafficAllocation := Z.rem userHash 100 in
              if PrimFloat.leb
                   (PrimFloat.mul (traffic_allocation testConfig) 100)
                   (number_of_Z trafficAllocation)
              then (None, self, [])
              else
                match assignVariant (variants testConfig) userHash with
                | None => (None, self, [])
                | Some variant =>
                    let assignment :=
                      {| Assignment.test_name := testName;
                         Assignment.variant_id := variant_id variant;
                         Assignment.variant_name := variant_name variant;
                         Assignment.assignment_timestamp := now;
                         Assignment.config := config variant |} in
                    let assignments :=
                      mapSet (userAssignments self) testName assignment in
                    (Some assignment,
                     {| userAssignments := assignments;
                        activeTests := activeTests self;
                        userAttributes := userAttributes self;
                        initialized := initialized self |},
                     [SaveUserAssignments assignments;
                      TrackUserAction "ab_test_assignment"
                        [("test_name", JSString testName);
                         ("variant_id", JSString (variant_id variant));
                         ("variant_name", JSString (variant_name variant));
                         ("assignment_timestamp", JSNumber now)]])
                end
        end
    end.

(** [isInVariant(testName, variantName)]. *)
Definition isInVariant (now : number) (testName variantName : string)
           (self : ABTestService) : bool * ABTestService * list Effect :=
  let '(assignment, self', effects) := getVariant now testName self in
  (match assignment with
   | Some a => String.eqb (Assignment.variant_name a) variantName
   | None => false
   end, self', effects).

(** [getConfig(testName, configKey, defaultValue)]. *)
Definition getConfig (now : number) (testName configKey : string)
           (defaultValue : JSValue) (self : ABTestService)
  : JSValue * ABTestService * list Effect :=
  let '(assignment, self', effects) := getVariant now testName self in
  (match assignment with
   | Some a =>
       match Assignment.config a with
       | Some config =>
           match getProperty config configKey with
           | JSUndefined | JSNull => defaultValue
           | v => v
           end
       | None => defaultValue
       end
   | None => defaultValue
   end, self', effects).

(** What [fetchActiveExperiments] does with the server's response, whose
    [experiments] property may be missing. *)
Definition storeExperiments (experiments : option (list ABTestConfig))
           (self : ABTestService) : ABTestService :=
  match experiments with
  | None => self
  | Some experiments =>
      {| userAssignments := userAssignments self;
         activeTests :=
           fold_left (fun tests experiment =>
                        mapSet tests (test_name experiment) experiment)
                     experiments [];
         userAttributes := userAttributes self;
         initialized := initialized self |}
  end.

(** [trackConversion(testName, metricName, value = 1)]; [now] is the value
    of [Date.now()] in this call.  The fields are only read. *)
Definition trackConversion (now : number) (testName metricName : string)
           (value : option number) (self : ABTestService) : list Effect :=
  let value := match value with Some value => value | None => 1%float end in
  match mapGet (userAssignments self) testName with
  | None =>
      [Warn ("No assignment found for test " ++ testName
             ++ " when tracking conversion")]
  | Some assignment =>
      [SendConversionEvent
         [("test_name", JSString testName);
          ("variant_id", JSString (Assignment.variant_id assignment));
          ("metric_name", JSString metricName);
          ("value", JSNumber value);
          ("timestamp", JSNumber now);
          ("user_id", getUserId self)];
       TrackUserAction "ab_test_conversion"
         [("test_name", JSString testName);
          ("variant_id", JSString (Assignment.variant_id assignment));
          ("variant_name", JSString (Assignment.variant_name assignment));
          ("metric_name", JSString metricName);
          ("value", JSNumber value)]]
  end.

(** [clearAssignments()]. *)
Definition clearAssignments (self : ABTestService)
  : ABTestService * list Effect :=
  ({| userAssignments := [];
      activeTests := activeTests self;
      userAttributes := userAttributes self;
      initialized := initialized self |},
   [RemoveStoredAssignments]).

End Service.

End ABTest.

(** A service to run the methods on: one active test, [onboarding], open to
    everyone from 2024 to 2030, with a single variant. *)
Module ABTestExample.

Local Open Scope string_scope.

Definition StringToNumber (s : string) : number := nan.
Definition NumberToString (x : number) : string := "NaN".
Definition BuiltinToString (name : string) : string :=
  if String.eqb name "__proto__" then "[object Object]"
  else "function " ++ name ++ "() { [native code] }".

Definition parseDate (s : string) : number :=
  if String.eqb s "2024-01-01T00:00:00Z" then 1704067200000
  else if String.eqb s "2030-01-01T00:00:00Z" then 1893456000000
  else nan.

Definition control : ABTest.ABTestVariant :=
  {| ABTest.variant_id := "a";
     ABTest.variant_name := "control";
     ABTest.traffic_weight := 1;
     ABTest.config := Some [("button", JSString "green")] |}.

Definition onboarding : ABTest.ABTestConfig :=
  {| ABTest.test_name := "onboarding";
     ABTest.test_id := "t1";
     ABTest.variants := [control];
     ABTest.targeting_rules := None;
     ABTest.traffic_allocation := 1;
     ABTest.start_date := "2024-01-01T00:00:00Z";
     ABTest.end_date := "2030-01-01T00:00:00Z";
     ABTest.status := "active";
     ABTest.primary_metric := "retention";
     ABTest.secondary_metrics := None |}.

Definition service : ABTest.ABTestService :=
  {| ABTest.userAssignments := [];
     ABTest.activeTests := [("onboarding", onboarding)];
     ABTest.userAttributes := [];
     ABTest.initialized := true |}.

(** A paused copy of the test, and a service that has not been
    initialised. *)
Definition paused : ABTest.ABTestConfig :=
  {| ABTest.test_name := "onboarding";
     ABTest.test_id := "t1";
     ABTest.variants := [control];
     ABTest.targeting_rules := None;
     ABTest.traffic_allocation := 1;
     ABTest.start_date := "2024-01-01T00:00:00Z";
     ABTest.end_date := "2030-01-01T00:00:00Z";
     ABTest.status := "paused";
     ABTest.primary_metric := "retention";
     ABTest.secondary_metrics := None |}.

Definition pausedService : ABTest.ABTestService :=
  {| ABTest.userAssignments := [];
     ABTest.activeTests := [("onboarding", paused)];
     ABTest.userAttributes := [];
     ABTest.initialized := true |}.

(** Copies of the test with one targeting rule: for users above level 5,
    and for users whose [constructor] attribute is not [undefined] (every
    user: the attributes object inherits one). *)
Definition targeted (rule : ABTest.TargetingRule) : ABTest.ABTestConfig :=
  {| ABTest.test_name := "onboarding";
     ABTest.test_id := "t1";
     ABTest.variants := [control];
     ABTest.targeting_rules := Some [rule];
     ABTest.traffic_allocation := 1;
     ABTest.start_date := "2024-01-01T00:00:00Z";
     ABTest.end_date := "2030-01-01T00:00:00Z";
     ABTest.status := "active";
     ABTest.primary_metric := "retention";
     ABTest.secondary_metrics := None |}.

Definition aboveLevel5 : ABTest.TargetingRule :=
  {| ABTest.attribute := "level";
     ABTest.operator := "greater_than";
     ABTest.value := JSNumber 5 |}.

Definition hasConstructor : ABTest.TargetingRule :=
  {| ABTest.attribute := "constructor";
     ABTest.operator := "not_equals";
     ABTest.value := JSUndefined |}.

Definition targetedService (rule : ABTest.TargetingRule)
  : ABTest.ABTestService :=
  {| ABTest.userAssignments := [];
     ABTest.activeTests := [("onboarding", targeted rule)];
     ABTest.userAttributes := [];
     ABTest.initialized := true |}.

Definition uninitialized : ABTest.ABTestService :=
  {| ABTest.userAssignments := [];
     ABTest.activeTests := [("onboarding", onboarding)];
     ABTest.userAttributes := [];
     ABTest.initialized := false |}.

(** A time in June 2025, one in March 2030, and the assignment the user
    gets at the first. *)
Definition now : number := 1750000000000.
Definition later : number := 1900000000000.

Definition assigned : ABTest.Assignment.UserAssignment :=
  {| ABTest.Assignment.test_name := "onboarding";
     ABTest.Assignment.variant_id := "a";
     ABTest.Assignment.variant_name := "control";
     ABTest.Assignment.assignment_timestamp := now;
     ABTest.Assignment.config := Some [("button", JSString "green")] |}.

(** A time in January 2027, and the assignment made then. *)
Definition soon : number := 1800000000000.

Definition reassigned : ABTest.Assignment.UserAssignment :=
  {| ABTest.Assignment.test_name := "onboarding";
     ABTest.Assignment.variant_id := "a";
     ABTest.Assignment.variant_name := "control";
     ABTest.Assignment.assignment_timestamp := soon;
     ABTest.Assignment.config := Some [("button", JSString "green")] |}.

Definition getVariant :=
  ABTest.getVariant StringToNumber NumberToString BuiltinToString parseDate.

End ABTestExample.

(** * Properties *)

(** ** Running methods *)

Lemma result_bind {A B : Type} (m : Method A) (k : A -> Method B) self :
  result (bind m k) self = result (k (result m self)) (after m self).
Proof.
  unfold result, after, bind.
  destruct (m self) as [[a s1] l1]; simpl.
  destruct (k a s1) as [[b s2] l2]; reflexivity.
Qed.

Lemma after_bind {A B : Type} (m : Method A) (k : A -> Method B) self :
  after (bind m k) self = after (k (result m self)) (after m self).
Proof.
  unfold result, after, bind.
  destruct (m self) as [[a s1] l1]; simpl.
  destruct (k a s1) as [[b s2] l2]; reflexivity.
Qed.

Lemma tracked_bind {A B : Type} (m : Method A) (k : A -> Method B) self :
  tracked (bind m k) self
  = tracked m self ++ tracked (k (result m self)) (after m self).
Proof.
  unfold tracked, result, after, bind.
  destruct (m self) as [[a s1] l1]; simpl.
  destruct (k a s1) as [[b s2] l2]; reflexivity.
Qed.

Lemma after_forEach_cons {A B : Type} (f : A -> Method B) x rest self :
  after (forEach f (x :: rest)) self
  = after (forEach f rest) (after (f x) self).
Proof. simpl. now rewrite after_bind. Qed.

(** ** The bounded history *)

Lemma slice_last_all {A : Type} (n : nat) (xs : list A) :
  length xs <= n -> slice_last n xs = xs.
Proof.
  intros H. unfold slice_last. now replace (length xs - n) with 0 by lia.
Qed.

Lemma slice_last_length {A : Type} (n : nat) (xs : list A) :
  length (slice_last n xs) = Nat.min (length xs) n.
Proof. unfold slice_last. rewrite length_skipn. lia. Qed.

Lemma tl_skipn {A : Type} (k : nat) (xs : list A) :
  tl (skipn k xs) = skipn (S k) xs.
Proof.
  revert xs. induction k as [|k IH]; intros [|x xs]; simpl; auto.
Qed.

(** One [push] and the conditional [shift] keep the last [MAX_HISTORY]
    elements of everything pushed so far. *)
Lemma push_shift_slice {A : Type} (xs : list A) (x : A) :
  let pushed := slice_last MAX_HISTORY xs ++ [x] in
  (if MAX_HISTORY <? length pushed then tl pushed else pushed)
  = slice_last MAX_HISTORY (xs ++ [x]).
Proof.
  cbv zeta. rewrite length_app, slice_last_length. simpl length.
  destruct (Nat.ltb_spec MAX_HISTORY (Nat.min (length xs) MAX_HISTORY + 1))
    as [H|H].
  - unfold slice_last. rewrite length_app. simpl length.
    replace (length xs + 1 - MAX_HISTORY) with (S (length xs - MAX_HISTORY))
      by lia.
    rewrite <- tl_skipn, !skipn_app.
    replace (length xs - MAX_HISTORY - length xs) with 0 by lia.
    simpl skipn.
    destruct (skipn (length xs - MAX_HISTORY) xs) eqn:E; [|reflexivity].
    apply (f_equal (@length A)) in E. rewrite length_skipn in E.
    unfold MAX_HISTORY in *. simpl length in E. lia.
  - rewrite (slice_last_all _ xs) by lia.
    symmetry. apply slice_last_all. rewrite length_app. simpl. lia.
Qed.

Lemma addLocationToHistory_run (location : LocationPoint) self :
  addLocationToHistory location self
  = (tt,
     {| locationHistory :=
          (let pushed := locationHistory self ++ [location] in
           if MAX_HISTORY <? length pushed then tl pushed else pushed);
        tileExplorationHistory := tileExplorationHistory self |},
     []).
Proof.
  unfold addLocationToHistory, bind, this, set_locationHistory. cbv zeta.
  destruct (MAX_HISTORY <? _); reflexivity.
Qed.

Lemma after_addLocationToHistory (location : LocationPoint) self :
  locationHistory (after (addLocationToHistory location) self)
  = (let pushed := locationHistory self ++ [location] in
     if MAX_HISTORY <? length pushed then tl pushed else pushed)
  /\ tileExplorationHistory (after (addLocationToHistory location) self)
     = tileExplorationHistory self.
Proof.
  unfold after. rewrite addLocationToHistory_run. split; reflexivity.
Qed.

(** From any state, the history afterwards ends with the sample just added. *)
Lemma history_after_add (location : LocationPoint) self :
  exists front,
    locationHistory (after (addLocationToHistory location) self)
    = front ++ [location].
Proof.
  destruct (after_addLocationToHistory location self) as [-> _]. cbv zeta.
  destruct (MAX_HISTORY <? _) eqn:E; [|eauto].
  destruct (locationHistory self) as [|a rest]; [discriminate E|].
  exists rest. reflexivity.
Qed.

Lemma lastLocationOf_after_add (location : LocationPoint) self :
  lastLocationOf (after (addLocationToHistory location) self) location
  = location.
Proof.
  unfold lastLocationOf.
  destruct (history_after_add location self) as [front ->].
  rewrite length_app. simpl length.
  replace (length front + 1 - 1) with (length front) by lia.
  rewrite app_nth2 by lia. now rewrite Nat.sub_diag.
Qed.

Lemma history_nonempty_after_add (location : LocationPoint) self :
  (length (locationHistory (after (addLocationToHistory location) self)) =? 0)
  = false.
Proof.
  destruct (history_after_add location self) as [front ->].
  rewrite length_app. simpl. apply Nat.eqb_neq. lia.
Qed.

Lemma checkLocationValidity_after haversine (newLocation : LocationPoint) self :
  after (checkLocationValidity haversine newLocation) self
  = after (addLocationToHistory newLocation) self.
Proof.
  unfold checkLocationValidity. rewrite after_bind.
  set (self' := after (addLocationToHistory newLocation) self).
  rewrite after_bind. change (after this self') with self'.
  change (result this self') with self'. cbv zeta.
  destruct (0 <? _); [rewrite after_bind|]; reflexivity.
Qed.

(** Any method that leaves the history as [addLocationToHistory] does keeps,
    call after call, the last [MAX_HISTORY] of all samples submitted. *)
Lemma history_after_forEach {B : Type} (f : LocationPoint -> Method B) :
  (forall x self, locationHistory (after (f x) self)
                  = locationHistory (after (addLocationToHistory x) self)) ->
  forall samples self submitted,
    locationHistory self = slice_last MAX_HISTORY submitted ->
    locationHistory (after (forEach f samples) self)
    = slice_last MAX_HISTORY (submitted ++ samples).
Proof.
  intros Hf samples.
  induction samples as [|x rest IH]; intros self submitted Hself.
  - now rewrite app_nil_r.
  - rewrite after_forEach_cons.
    rewrite (IH _ (submitted ++ [x])); [now rewrite <- app_assoc|].
    rewrite Hf. destruct (after_addLocationToHistory x self) as [-> _].
    rewrite Hself. apply push_shift_slice.
Qed.

Lemma slice_last_suffix {A : Type} (n : nat) (xs : list A) :
  xs = firstn (length xs - n) xs ++ slice_last n xs.
Proof. unfold slice_last. now rewrite firstn_skipn. Qed.

(** ** Bounded history *)

(** C4 -- After any sequence of appended samples, whether appended by
    [addLocationToHistory] or submitted through [checkLocationValidity],
    [getLocationHistory] returns the last [min n 100] of them in their
    original order: the samples are the evicted head followed by exactly the
    history.  For 150 samples the history has length 100 and is the samples
    from the 51st on. *)
Theorem bounded_history_keeps_last_100 haversine
        (samples : list LocationPoint) :
  let appended := after (forEach addLocationToHistory samples) fresh in
  let evaluated :=
    after (forEach (checkLocationValidity haversine) samples) fresh in
  result getLocationHistory evaluated = result getLocationHistory appended
  /\ (exists evicted,
         samples = evicted ++ result getLocationHistory appended)
  /\ length (result getLocationHistory appended)
     = Nat.min (length samples) 100
  /\ (length samples = 150 ->
      length (result getLocationHistory appended) = 100
      /\ result getLocationHistory appended = skipn 50 samples).
Proof.
  cbv zeta.
  change (result getLocationHistory ?s) with (locationHistory s).
  rewrite (history_after_forEach (checkLocationValidity haversine))
    with (submitted := []);
    [|intros; now rewrite checkLocationValidity_after|reflexivity].
  rewrite (history_after_forEach addLocationToHistory) with (submitted := []);
    [|reflexivity|reflexivity].
  simpl app. repeat split.
  - eexists. apply slice_last_suffix.
  - apply slice_last_length.
  - rewrite slice_last_length. unfold MAX_HISTORY. lia.
  - unfold slice_last, MAX_HISTORY. now rewrite H.
Qed.

Lemma bounded_history_keeps_last_100_witness :
  let samples :=
    map (fun i => sampleAt (of_nat i) 0 (of_nat i * 1000)) (seq 1 150) in
  length samples = 150
  /\ result getLocationHistory
       (after (forEach addLocationToHistory samples) fresh)
     = map (fun i => sampleAt (of_nat i) 0 (of_nat i * 1000)) (seq 51 100).
Proof.
  cbv zeta. split; [reflexivity|].
  destruct (bounded_history_keeps_last_100 Coordinate.haversine
              (map (fun i => sampleAt (of_nat i) 0 (of_nat i * 1000))
                   (seq 1 150)))
    as (_ & _ & _ & H).
  destruct (H eq_refl) as [_ ->]. reflexivity.
Defined.

(** ** Facts about binary64 arithmetic

    Proved on the specification-level image [Prim2SF] of the primitive
    floats. *)

Section FloatFacts.

Local Open Scope float_scope.

Lemma Prim2SF_5 : Prim2SF 5 = S754_finite false 5629499534213120 (-50).
Proof. vm_compute. reflexivity. Qed.
Lemma Prim2SF_50 : Prim2SF 50 = S754_finite false 7036874417766400 (-47).
Proof. vm_compute. reflexivity. Qed.
Lemma Prim2SF_90 : Prim2SF 90 = S754_finite false 6333186975989760 (-46).
Proof. vm_compute. reflexivity. Qed.
Lemma Prim2SF_100 : Prim2SF 100 = S754_finite false 7036874417766400 (-46).
Proof. vm_compute. reflexivity. Qed.
Lemma Prim2SF_1000 : Prim2SF 1000 = S754_finite false 8796093022208000 (-43).
Proof. vm_compute. reflexivity. Qed.

Lemma SFcompare_Eq (a b : spec_float) :
  SFcompare a b = Some Eq ->
  a = b \/ exists s s', a = S754_zero s /\ b = S754_zero s'.
Proof.
  destruct a as [sa|sa| |sa ma ea], b as [sb|sb| |sb mb eb]; simpl;
    try discriminate; try (destruct sa; discriminate);
    try (destruct sb; discriminate).
  - right; eauto.
  - destruct sa, sb; try discriminate; auto.
  - rewrite Pos.compare_cont_spec. unfold Pos.switch_Eq.
    destruct sa, sb; try discriminate;
      destruct (Z.compare_spec ea eb); try discriminate; subst;
      destruct (Pos.compare_spec ma mb); try discriminate; subst; auto.
Qed.

(** A value minus itself is a zero, or NaN (for NaN and the infinities). *)
Lemma SFsub_self (a : spec_float) :
  SF64sub a a = S754_nan \/ exists s, SF64sub a a = S754_zero s.
Proof.
  destruct a as [s|s| |s m e]; simpl; auto.
  - right. destruct s; eauto.
  - destruct s; auto.
  - right. exists false. unfold SF64sub, SFsub.
    rewrite Z.sub_diag. reflexivity.
Qed.

(** Between two samples with the same timestamp (the same number, or
    numbers that are [===]) the time difference in seconds is not above 5:
    it is a zero or NaN. *)
Lemma timeDiff_of_equal (a b : number) :
  a = b \/ strict_eq a b = true -> gt ((a - b) / 1000) 5 = false.
Proof.
  unfold gt, strict_eq. intros H.
  assert (Z : SF64sub (Prim2SF a) (Prim2SF b) = S754_nan
              \/ exists s, SF64sub (Prim2SF a) (Prim2SF b) = S754_zero s).
  { destruct H as [->|H]; [apply SFsub_self|].
    rewrite FloatAxioms.eqb_spec in H. unfold SFeqb in H.
    destruct (SFcompare (Prim2SF a) (Prim2SF b)) as [[]|] eqn:E;
      try discriminate.
    apply SFcompare_Eq in E. destruct E as [->|(s & s' & -> & ->)].
    - apply SFsub_self.
    - right. destruct s, s'; simpl; eauto. }
  rewrite FloatAxioms.ltb_spec, FloatAxioms.div_spec, FloatAxioms.sub_spec.
  rewrite Prim2SF_5, Prim2SF_1000.
  destruct Z as [->|[s ->]]; reflexivity.
Qed.

Lemma shr_1_nonneg (r : shr_record) :
  (0 <= shr_m r)%Z -> (0 <= shr_m (shr_1 r))%Z.
Proof.
  destruct r as [m r s]; simpl. destruct m as [|[p|p|]|[p|p|]]; simpl; lia.
Qed.

Lemma iter_pos_nonneg (p : positive) (r : shr_record) :
  (0 <= shr_m r)%Z -> (0 <= shr_m (SpecFloat.iter_pos shr_1 p r))%Z.
Proof.
  revert r. induction p; intros r H; simpl; auto using shr_1_nonneg.
Qed.

Lemma shr_fexp_nonneg (m e : Z) (l : location) :
  (0 <= m)%Z -> (0 <= shr_m (fst (shr_fexp prec emax m e l)))%Z.
Proof.
  intros H. unfold shr_fexp, shr.
  assert (H0 : (0 <= shr_m (shr_record_of_loc m l))%Z)
    by (destruct l as [|[]]; simpl; exact H).
  destruct (_ - e)%Z; simpl; auto using iter_pos_nonneg.
Qed.

Lemma round_nearest_even_nonneg (m : Z) (l : location) :
  (0 <= m)%Z -> (0 <= round_nearest_even m l)%Z.
Proof.
  intros H. destruct l as [|[]]; simpl; try lia. destruct (Z.even m); lia.
Qed.

(** Rounding a non-negative magnitude under a positive sign never yields
    a negative value or NaN. *)
Lemma binary_round_aux_nonneg (m e : Z) (l : location) :
  (0 <= m)%Z -> nonneg (binary_round_aux prec emax false m e l).
Proof.
  intros H. unfold binary_round_aux.
  pose proof (shr_fexp_nonneg m e l H) as H1.
  destruct (shr_fexp prec emax m e l) as [r1 e1]. simpl in H1.
  pose proof (shr_fexp_nonneg _ e1 loc_Exact
                (round_nearest_even_nonneg _ (loc_of_shr_record r1) H1))
    as H2.
  destruct (shr_fexp prec emax _ e1 loc_Exact) as [r2 e2]. simpl in H2.
  destruct (shr_m r2); simpl; try lia; auto.
  destruct (_ <=? _)%Z; simpl; auto.
Qed.

Lemma binary_normalize_nonneg (m e : Z) :
  (0 <= m)%Z -> nonneg (binary_normalize prec emax m e false).
Proof.
  intros H. destruct m as [|p|p]; simpl; auto; try lia.
  unfold binary_round. destruct (shl_align _ _ _) as [mz ez].
  apply binary_round_aux_nonneg. lia.
Qed.

Lemma SFadd_nonneg (x y : spec_float) :
  nonneg x -> nonneg y -> nonneg (SF64add x y).
Proof.
  destruct x as [[]|[]| |[] mx ex], y as [[]|[]| |[] my ey];
    intros Hx Hy; simpl in Hx, Hy; try contradiction; try exact I.
  unfold SF64add, SFadd. apply binary_normalize_nonneg. simpl. lia.
Qed.

Lemma digits2_size (m : positive) : digits2_pos m = Pos.size m.
Proof. induction m; simpl; congruence. Qed.

Lemma iter_xO_lower (m d : positive) : (Pos.iter xO m d >= m~0)%positive.
Proof.
  assert (G : forall k, (Pos.iter xO m k >= m)%positive).
  { intros k. apply Pos.iter_invariant; [intros; lia | lia]. }
  destruct (Pos.succ_pred_or d) as [->| <-].
  - simpl. lia.
  - rewrite Pos.iter_succ. specialize (G (Pos.pred d)). lia.
Qed.

(** [x - 50] is not negative when [50 < x]. *)
Lemma SFsub_50_nonneg (x : spec_float) :
  valid_binary x = true ->
  SFltb (Prim2SF 50) x = true -> nonneg (SF64sub x (Prim2SF 50)).
Proof.
  rewrite Prim2SF_50.
  destruct x as [[]|[]| |[] m e]; intros V L; try discriminate L;
    try exact I.
  unfold SFltb, SFcompare in L. unfold SF64sub, SFsub.
  apply binary_normalize_nonneg.
  unfold bounded, canonical_mantissa, prec, emax in V.
  apply andb_true_iff in V. destruct V as [V _]. apply Z.eqb_eq in V.
  unfold SpecFloat.fexp, SpecFloat.emin in V. rewrite digits2_size in V.
  pose proof (Pos.size_le m) as S.
  unfold shl_align.
  rewrite Pos.compare_cont_spec, Pos2Z.inj_compare in L.
  unfold Pos.switch_Eq in L.
  destruct (Z.compare_spec (-47) e) as [E|E|E]; try discriminate.
  - subst e. rewrite Z.min_id.
    change (-47 - -47)%Z with 0%Z. unfold cond_Zopp. simpl fst.
    destruct (Z.compare_spec 7036874417766400 (Z.pos m));
      try discriminate. lia.
  - rewrite Z.min_r by lia.
    destruct (-47 - e)%Z as [|d|d] eqn:D; try lia.
    change (-47 - -47)%Z with 0%Z. unfold cond_Zopp. simpl fst.
    pose proof (iter_xO_lower m d).
    assert (Pos.size m = 53%positive) by lia.
    rewrite H0 in S.
    change (2 ^ 53)%positive with 9007199254740992%positive in S. lia.
Qed.

Lemma nonneg_eqb_refl (y : number) :
  nonneg (Prim2SF y) -> (y =? y) = true.
Proof.
  rewrite FloatAxioms.eqb_spec. unfold SFeqb, SFcompare.
  destruct (Prim2SF y) as [[]|[]| |[] m e]; simpl; try contradiction; auto.
  intros _. rewrite Z.compare_refl, Pos.compare_cont_spec.
  now rewrite Pos.compare_refl.
Qed.

Lemma nonneg_below_90 (y : number) :
  nonneg (Prim2SF y) -> (90 <? y) = false ->
  (0 <=? y) = true /\ (y <=? 100) = true.
Proof.
  rewrite FloatAxioms.ltb_spec, !FloatAxioms.leb_spec.
  rewrite Prim2SF_90, Prim2SF_100.
  replace (Prim2SF 0) with (S754_zero false)
    by (symmetry; vm_compute; reflexivity).
  unfold SFltb, SFleb, SFcompare.
  destruct (Prim2SF y) as [[]|[]| |[] m e]; try contradiction;
    try discriminate; auto.
  intros _. rewrite (Z.compare_antisym e (-46)), !Pos.compare_cont_spec.
  unfold Pos.switch_Eq. rewrite !Pos2Z.inj_compare.
  destruct (Z.compare e (-46)); cbn [CompOpp]; try discriminate; auto.
  destruct (Z.compare_spec 6333186975989760 (Z.pos m)) as [C|C|C];
    intros H90; try discriminate H90; split; try reflexivity;
    destruct (Z.compare_spec (Z.pos m) 7036874417766400) as [C'|C'|C'];
    try reflexivity; exfalso; lia.
Qed.

(** The score of a flagged speed, [Math.min(90, 50 + (speed - 50))], lies
    within [0, 100] for every speed above 50, finite or not. *)
Lemma speed_score_range (speed : number) :
  gt speed MAX_HUMAN_SPEED = true ->
  in_0_100 (Math_min 90 (50 + (speed - MAX_HUMAN_SPEED))) = true.
Proof.
  unfold gt, MAX_HUMAN_SPEED, in_0_100. intros L.
  assert (N : nonneg (Prim2SF (50 + (speed - 50)))).
  { rewrite FloatAxioms.add_spec, FloatAxioms.sub_spec.
    apply SFadd_nonneg.
    - rewrite Prim2SF_50. exact I.
    - apply SFsub_50_nonneg; [apply FloatAxioms.Prim2SF_valid|].
      now rewrite <- FloatAxioms.ltb_spec. }
  set (y := 50 + (speed - 50)) in *.
  unfold Math_min. cbn [fold_left].
  change (min2 infinity 90) with 90.
  unfold min2, isNaN. rewrite (nonneg_eqb_refl y N).
  change (negb (90 =? 90) || negb true) with false. cbv iota.
  apply andb_true_iff.
  destruct (90 <? y) eqn:E; [split; reflexivity|].
  change (is_neg_zero 90) with false. cbv iota.
  assert (R := nonneg_below_90 y N E).
  destruct (y <? 90); exact R.
Qed.

End FloatFacts.

(** ** The guards as [checkLocationValidity] runs them *)

Section AfterAppend.

Variable haversine : number -> number -> number -> number -> number.
Variable newLocation : LocationPoint.
Variable self : FraudDetectionService.

Local Open Scope float_scope.

(** The speed check reads the last entry of the history, which by then is
    the new sample itself: the time difference is never above 5. *)
Lemma speed_after_add :
  checkImpossibleSpeed haversine
    (after (addLocationToHistory newLocation) self) newLocation
  = Build_Result false "speed_normal" 0 null.
Proof.
  unfold checkImpossibleSpeed.
  rewrite history_nonempty_after_add, lastLocationOf_after_add.
  cbv zeta. unfold timeDiffOf.
  rewrite (timeDiff_of_equal (timestamp newLocation) (timestamp newLocation))
    by (left; reflexivity).
  now rewrite andb_false_r.
Qed.

Lemma teleport_after_add :
  checkTeleportation haversine
    (after (addLocationToHistory newLocation) self) newLocation
  = (let distance :=
       haversine (latitude newLocation) (longitude newLocation)
                 (latitude newLocation) (longitude newLocation) in
     let timeDiff := timeDiffOf newLocation newLocation in
     if gt distance 1 && lt timeDiff 2
     then Build_Result true "teleportation" 95
            (TeleportDetails distance timeDiff
               (latitude newLocation, longitude newLocation)
               (latitude newLocation, longitude newLocation))
     else Build_Result false "movement_normal" 0 null).
Proof.
  unfold checkTeleportation.
  now rewrite history_nonempty_after_add, lastLocationOf_after_add.
Qed.

Lemma accuracy_cases :
  checkLocationAccuracy newLocation
  = Build_Result false "accuracy_good" 0 null
  \/ exists d,
      checkLocationAccuracy newLocation
      = Build_Result true "poor_accuracy" 30 d.
Proof. unfold checkLocationAccuracy. destruct (gt _ _); eauto. Qed.

Lemma pattern_cases (service : FraudDetectionService) :
  (exists r, checkMovementPattern service newLocation
             = Build_Result false r 0 null)
  \/ exists d,
      checkMovementPattern service newLocation
      = Build_Result true "identical_coordinates" 70 d.
Proof.
  unfold checkMovementPattern.
  destruct (_ <? 5)%nat; [eauto|]. cbv zeta.
  destruct (3 <? _)%nat; eauto.
Qed.

Lemma teleport_cases (service : FraudDetectionService) :
  (exists r, checkTeleportation haversine service newLocation
             = Build_Result false r 0 null)
  \/ exists d,
      checkTeleportation haversine service newLocation
      = Build_Result true "teleportation" 95 d.
Proof.
  unfold checkTeleportation.
  destruct (_ =? 0)%nat; [eauto|]. cbv zeta. destruct (_ && _); eauto.
Qed.

Lemma checkLocationValidity_result :
  result (checkLocationValidity haversine newLocation) self
  = (let suspiciousChecks :=
       filter isSuspicious
              (runChecks haversine
                         (after (addLocationToHistory newLocation) self)
                         newLocation) in
     if (0 <? length suspiciousChecks)%nat then
       let maxRiskScore := Math_max (map riskScore suspiciousChecks) in
       Build_Result true
         match find (fun check => strict_eq (riskScore check) maxRiskScore)
                    suspiciousChecks with
         | Some check => or_string (reason check) "unknown"
         | None => "unknown"%string
         end
         maxRiskScore (SuspiciousChecks suspiciousChecks)
     else Build_Result false "location_valid" 0 null).
Proof.
  unfold checkLocationValidity. rewrite !result_bind.
  set (self' := after (addLocationToHistory newLocation) self).
  change (after this self') with self'.
  change (result this self') with self'. cbv zeta.
  destruct (0 <? _)%nat; [rewrite result_bind|]; reflexivity.
Qed.

End AfterAppend.

Lemma find_first_with_score (m : number) checks winner :
  find (fun check => strict_eq (riskScore check) m) checks = Some winner ->
  first_with_score m checks winner.
Proof.
  induction checks as [|c rest IH]; [discriminate|]. simpl.
  destruct (strict_eq (riskScore c) m) eqn:E.
  - intros [= <-]. exists [], rest. auto.
  - intros H. destruct (IH H) as (earlier & later & -> & Hw & He).
    exists (c :: earlier), later. auto.
Qed.

(** ** The aggregated verdict *)

(** Closes one combination of guard outcomes: the list of suspicious checks
    is then explicit and every score in it is a literal. *)
Ltac aggregate_case :=
  cbn [filter isSuspicious];
  split;
  [ intros E; first [reflexivity | discriminate E]
  | intros NE; first
      [ exfalso; apply NE; reflexivity
      | split; [reflexivity|];
        split; [split; [lazy; tauto | repeat constructor]|];
        split; [|reflexivity];
        eexists; split; [apply find_first_with_score; lazy|]; reflexivity ] ].

(** C1 -- For every service state and sample, [checkLocationValidity] runs
    the speed, accuracy, pattern and teleport checks in that order on the
    history it has just appended to.  When none is suspicious the verdict is
    not suspicious, ['location_valid'], score 0.  Otherwise the verdict is
    suspicious, its score is the maximum of the suspicious checks' scores,
    its reason is the reason of the first suspicious check, in that order,
    whose score equals that maximum, and its details are the suspicious
    checks. *)
Theorem verdict_is_max_score_first_match haversine self newLocation :
  let self' := after (addLocationToHistory newLocation) self in
  let speedCheck := checkImpossibleSpeed haversine self' newLocation in
  let accuracyCheck := checkLocationAccuracy newLocation in
  let patternCheck := checkMovementPattern self' newLocation in
  let teleportCheck := checkTeleportation haversine self' newLocation in
  let suspicious :=
    filter isSuspicious
           [speedCheck; accuracyCheck; patternCheck; teleportCheck] in
  let verdict := result (checkLocationValidity haversine newLocation) self in
  (suspicious = [] ->
   verdict = Build_Result false "location_valid" 0 null)
  /\ (suspicious <> [] ->
      isSuspicious verdict = true
      /\ is_maximum (riskScore verdict) (map riskScore suspicious)
      /\ (exists winner,
             first_with_score (riskScore verdict) suspicious winner
             /\ reason verdict = reason winner)
      /\ details verdict = SuspiciousChecks suspicious).
Proof.
  cbv zeta. rewrite checkLocationValidity_result. unfold runChecks. cbv zeta.
  rewrite speed_after_add.
  set (self' := after (addLocationToHistory newLocation) self).
  destruct (accuracy_cases newLocation) as [->|[da ->]];
    destruct (pattern_cases newLocation self') as [[rp ->]|[dp ->]];
    destruct (teleport_cases haversine newLocation self')
      as [[rt ->]|[dt ->]];
    aggregate_case.
Qed.

Lemma verdict_is_max_score_first_match_witness :
  let newLocation :=
    {| latitude := 0; longitude := 0; timestamp := 0; accuracy := 150;
       speed := None |} in
  let self' := after (addLocationToHistory newLocation) fresh in
  let verdict :=
    result (checkLocationValidity Coordinate.haversine newLocation) fresh in
  filter isSuspicious (runChecks Coordinate.haversine self' newLocation) <> []
  /\ isSuspicious verdict = true
  /\ is_maximum (riskScore verdict) [30%float].
Proof.
  cbv zeta.
  set (newLocation := {| latitude := 0; longitude := 0; timestamp := 0;
                         accuracy := 150; speed := None |}).
  assert (NE : filter isSuspicious
                 (runChecks Coordinate.haversine
                            (after (addLocationToHistory newLocation) fresh)
                            newLocation) <> [])
    by (vm_compute; discriminate).
  split; [exact NE|].
  destruct (verdict_is_max_score_first_match Coordinate.haversine fresh
                                             newLocation) as [_ H].
  destruct (H NE) as (Hs & Hm & _). split; [exact Hs|exact Hm].
Defined.

(** The score of a verdict is one of the three fixed scores, or 0: the speed
    check, the only one with a computed score, is never suspicious here. *)
Lemma verdict_score_values haversine self newLocation :
  let score :=
    riskScore (result (checkLocationValidity haversine newLocation) self) in
  score = 0%float \/ score = 30%float \/ score = 70%float \/ score = 95%float.
Proof.
  cbv zeta. rewrite checkLocationValidity_result. unfold runChecks. cbv zeta.
  rewrite speed_after_add.
  set (self' := after (addLocationToHistory newLocation) self).
  destruct (accuracy_cases newLocation) as [->|[da ->]];
    destruct (pattern_cases newLocation self') as [[rp ->]|[dp ->]];
    destruct (teleport_cases haversine newLocation self')
      as [[rt ->]|[dt ->]];
    lazy; tauto.
Qed.

(** ** Append before evaluation *)

(** C10 -- Every call of [checkLocationValidity] first appends the sample to
    the history, dropping the oldest entry when that makes 101, and runs the
    guards on the history so extended; this happens whatever the verdict is
    (the sample is the last entry of the history afterwards, flagged or not),
    and the tile log is left as it was. *)
Theorem sample_appended_before_guards haversine self newLocation :
  let pushed := locationHistory self ++ [newLocation] in
  let self' := after (checkLocationValidity haversine newLocation) self in
  let verdict := result (checkLocationValidity haversine newLocation) self in
  let suspicious :=
    filter isSuspicious (runChecks haversine self' newLocation) in
  locationHistory self'
  = (if MAX_HISTORY <? length pushed then tl pushed else pushed)
  /\ (exists front, locationHistory self' = front ++ [newLocation])
  /\ tileExplorationHistory self' = tileExplorationHistory self
  /\ (isSuspicious verdict = false /\ suspicious = []
      \/ isSuspicious verdict = true /\ suspicious <> []
         /\ details verdict = SuspiciousChecks suspicious).
Proof.
  cbv zeta. rewrite checkLocationValidity_after, checkLocationValidity_result.
  destruct (after_addLocationToHistory newLocation self) as [Hh Ht].
  split; [exact Hh|]. split; [apply history_after_add|].
  split; [exact Ht|]. cbv zeta.
  destruct (filter isSuspicious _) as [|c rest]; simpl.
  - left. auto.
  - right. repeat split. discriminate.
Qed.

(** ** Equal timestamps *)

(** C6 -- When the new sample carries the timestamp of the last history
    entry, so that the time difference is zero, the speed check divides by
    zero but its guard [timeDiff > 5] fails: the outcome is not suspicious,
    ['speed_normal'], score 0.  The verdict of [checkLocationValidity] then
    has one of the scores 0, 30, 70, 95, never NaN or an infinity. *)
Theorem speed_check_skips_zero_time_difference haversine self newLocation :
  length (locationHistory self) <> 0 ->
  (timestamp newLocation = timestamp (lastLocationOf self newLocation)
   \/ strict_eq (timestamp newLocation)
                (timestamp (lastLocationOf self newLocation)) = true) ->
  checkImpossibleSpeed haversine self newLocation
  = Build_Result false "speed_normal" 0 null
  /\ (let score :=
        riskScore (result (checkLocationValidity haversine newLocation) self)
      in (score = 0 \/ score = 30 \/ score = 70 \/ score = 95)%float
         /\ isNaN score = false).
Proof.
  intros Hlen Ht. split.
  - unfold checkImpossibleSpeed.
    destruct (Nat.eqb_spec (length (locationHistory self)) 0) as [E|_];
      [contradiction|].
    cbv zeta. unfold timeDiffOf. rewrite (timeDiff_of_equal _ _ Ht).
    now rewrite andb_false_r.
  - pose proof (verdict_score_values haversine self newLocation) as V.
    cbv zeta in *. split; [exact V|].
    destruct V as [-> | [-> | [-> | ->]]]; reflexivity.
Qed.

Lemma speed_check_skips_zero_time_difference_witness :
  let self := {| locationHistory := [sampleAt 0 0 1000];
                 tileExplorationHistory := [] |} in
  let newLocation := sampleAt 0.01 0 1000 in
  length (locationHistory self) <> 0
  /\ timestamp newLocation = timestamp (lastLocationOf self newLocation)
  /\ checkImpossibleSpeed Coordinate.haversine self newLocation
     = Build_Result false "speed_normal" 0 null.
Proof.
  cbv zeta.
  assert (Hlen : length [sampleAt 0 0 1000] <> 0) by (simpl; discriminate).
  split; [exact Hlen|]. split; [reflexivity|].
  exact (proj1 (speed_check_skips_zero_time_difference
                  Coordinate.haversine
                  {| locationHistory := [sampleAt 0 0 1000];
                     tileExplorationHistory := [] |}
                  (sampleAt 0.01 0 1000) Hlen (or_introl eq_refl))).
Defined.

(** ** The first sample of a session, and the teleport scenario *)

(** C2 -- On the first sample of a fresh session the guards run on a history
    that already holds that sample: provided the distance function does not
    put a point more than 1 km from itself, the speed check answers
    ['speed_normal'] and the teleport check ['movement_normal'] (not
    ['no_previous_location']), and the pattern check answers
    ['insufficient_pattern_data']; none is suspicious. *)
Theorem first_sample_guard_outcomes haversine newLocation :
  gt (haversine (latitude newLocation) (longitude newLocation)
                (latitude newLocation) (longitude newLocation)) 1 = false ->
  let self' := after (addLocationToHistory newLocation) fresh in
  locationHistory self' = [newLocation]
  /\ checkImpossibleSpeed haversine self' newLocation
     = Build_Result false "speed_normal" 0 null
  /\ checkMovementPattern self' newLocation
     = Build_Result false "insufficient_pattern_data" 0 null
  /\ checkTeleportation haversine self' newLocation
     = Build_Result false "movement_normal" 0 null.
Proof.
  intros Hself. cbv zeta. split; [reflexivity|].
  split; [apply speed_after_add|]. split; [reflexivity|].
  rewrite teleport_after_add. cbv zeta. now rewrite Hself.
Qed.

Lemma first_sample_guard_outcomes_witness :
  gt (Coordinate.haversine 0 0 0 0) 1 = false
  /\ map reason
         (runChecks Coordinate.haversine
                    (after (addLocationToHistory (sampleAt 0 0 0)) fresh)
                    (sampleAt 0 0 0))
     = ["speed_normal"; "accuracy_good"; "insufficient_pattern_data";
        "movement_normal"]%string.
Proof.
  assert (Hself : gt (Coordinate.haversine 0 0 0 0) 1 = false)
    by (vm_compute; reflexivity).
  split; [exact Hself|].
  destruct (first_sample_guard_outcomes Coordinate.haversine (sampleAt 0 0 0)
                                        Hself)
    as (_ & Hspeed & Hpattern & Hteleport).
  unfold runChecks. cbv zeta.
  rewrite Hspeed, Hpattern, Hteleport. reflexivity.
Defined.

(** C3 -- In the teleport scenario (a first sample at (0, 0) at t = 0, then
    a sample at (0, 0.02) at t = 500 ms, both with good accuracy) the teleport
    check compares the new sample with the history's last entry, which is the
    new sample itself: provided the distance function does not put (0, 0.02)
    more than 1 km from itself, the check answers ['movement_normal'] and the
    verdict is not suspicious, ['location_valid'], score 0. *)
Theorem teleport_scenario_verdict haversine :
  gt (haversine 0 0.02 0 0.02)%float 1 = false ->
  let previous := sampleAt 0 0 0 in
  let next := sampleAt 0 0.02 500 in
  let session := after (checkLocationValidity haversine previous) fresh in
  locationHistory session = [previous]
  /\ checkTeleportation haversine
       (after (addLocationToHistory next) session) next
     = Build_Result false "movement_normal" 0 null
  /\ result (checkLocationValidity haversine next) session
     = Build_Result false "location_valid" 0 null.
Proof.
  intros Hself. cbv zeta. rewrite checkLocationValidity_after.
  split; [reflexivity|].
  assert (Ht : checkTeleportation haversine
                 (after (addLocationToHistory (sampleAt 0 0.02 500))
                        (after (addLocationToHistory (sampleAt 0 0 0)) fresh))
                 (sampleAt 0 0.02 500)
               = Build_Result false "movement_normal" 0 null).
  { rewrite teleport_after_add. cbv zeta. simpl latitude. simpl longitude.
    now rewrite Hself. }
  split; [exact Ht|].
  rewrite checkLocationValidity_result. unfold runChecks. cbv zeta.
  rewrite speed_after_add, Ht. reflexivity.
Qed.

Lemma teleport_scenario_verdict_witness :
  gt (Coordinate.haversine 0 0.02 0 0.02)%float 1 = false
  /\ result (checkLocationValidity Coordinate.haversine (sampleAt 0 0.02 500))
            (after (checkLocationValidity Coordinate.haversine (sampleAt 0 0 0))
                   fresh)
     = Build_Result false "location_valid" 0 null.
Proof.
  assert (Hself : gt (Coordinate.haversine 0 0.02 0 0.02)%float 1 = false)
    by (vm_compute; reflexivity).
  split; [exact Hself|].
  exact (proj2 (proj2 (teleport_scenario_verdict Coordinate.haversine Hself))).
Defined.

(** The teleport check itself, run on the session as it was before the second
    sample was appended, does flag the scenario: about 2.22 km in 0.5 s. *)
Example teleport_check_against_previous_sample :
  let session :=
    after (checkLocationValidity Coordinate.haversine (sampleAt 0 0 0)) fresh in
  let outcome :=
    checkTeleportation Coordinate.haversine session (sampleAt 0 0.02 500) in
  isSuspicious outcome = true
  /\ reason outcome = "teleportation"%string
  /\ riskScore outcome = 95%float.
Proof. vm_compute. auto. Qed.

(** ** PatternGuard *)





(** ** The exploration-rate check *)

Section ExplorationRate.

Local Open Scope Z_scope.

Lemma filter_narrower {A : Type} (p q : A -> bool) (xs : list A) :
  (forall x, p x = true -> q x = true) ->
  filter p (filter q xs) = filter p xs.
Proof.
  intros H. induction xs as [|x rest IH]; [reflexivity|]. simpl.
  destruct (q x) eqn:Q; simpl; destruct (p x) eqn:P; try now rewrite IH.
  rewrite (H x P) in Q. discriminate.
Qed.

Lemma filter_all {A : Type} (p : A -> bool) (xs : list A) :
  Forall (fun x => p x = true) xs -> filter p xs = xs.
Proof.
  induction 1 as [|x rest Hx _ IH]; [reflexivity|]. simpl.
  now rewrite Hx, IH.
Qed.

(** What one call does, with the counting done on the log as it was
    before the call. *)
Lemma checkExplorationRate_run (now : Z) (tileId : string) self :
  let kept :=
    filter (withinLast 3600000 now) (tileExplorationHistory self)
    ++ [tileRecord (now, tileId)] in
  let recent :=
    filter (withinLast 60000 now) (tileExplorationHistory self)
    ++ [tileRecord (now, tileId)] in
  checkExplorationRate now tileId self
  = (if (RAPID_EXPLORATION_THRESHOLD <? length recent)%nat
     then Build_Result true "rapid_exploration" 85
            (ExplorationDetails (length recent) RAPID_EXPLORATION_THRESHOLD)
     else Build_Result false "exploration_rate_normal" 0 null,
     {| locationHistory := locationHistory self;
        tileExplorationHistory := kept |},
     if (RAPID_EXPLORATION_THRESHOLD <? length recent)%nat
     then [ {| suspiciousType := "rapid_exploration";
               tracked_latitude := 0;
               tracked_longitude := 0;
               tracked_accuracy := 0;
               tracked_speed := None;
               tracked_details :=
                 RapidExploration (length recent) RAPID_EXPLORATION_THRESHOLD
                                  (map TileExploration.tileId recent) |} ]
     else []).
Proof.
  cbv zeta. unfold checkExplorationRate, bind, this. cbv zeta.
  change (now - 60 * 60 * 1000) with (now - 3600000).
  change (now - 60 * 1000) with (now - 60000).
  fold (withinLast 3600000 now) (withinLast 60000 now).
  assert (K : filter (withinLast 3600000 now)
                     (tileExplorationHistory self
                      ++ [ {| TileExploration.tileId := tileId;
                              TileExploration.timestamp := now |} ])
              = filter (withinLast 3600000 now) (tileExplorationHistory self)
                ++ [tileRecord (now, tileId)]).
  { rewrite filter_app. simpl. unfold withinLast at 2. simpl.
    now rewrite (proj2 (Z.ltb_lt (now - 3600000) now)) by lia. }
  rewrite K.
  assert (R : filter (withinLast 60000 now)
                     (filter (withinLast 3600000 now)
                             (tileExplorationHistory self)
                      ++ [tileRecord (now, tileId)])
              = filter (withinLast 60000 now) (tileExplorationHistory self)
                ++ [tileRecord (now, tileId)]).
  { rewrite filter_app, filter_narrower.
    - simpl. unfold withinLast at 2. simpl.
      now rewrite (proj2 (Z.ltb_lt (now - 60000) now)) by lia.
    - intros r. unfold withinLast. rewrite !Z.ltb_lt. lia. }
  unfold set_tileExplorationHistory. simpl tileExplorationHistory.
  rewrite R.
  destruct (RAPID_EXPLORATION_THRESHOLD <? _)%nat; reflexivity.
Qed.

(** Calls whose times lie within an hour of one another, made on a log
    whose entries do too, prune nothing: the log grows by one entry a call. *)
Lemma log_after_calls (calls : list (Z * string)) : forall self,
  (forall a b,
      In a (map TileExploration.timestamp (tileExplorationHistory self)
            ++ map fst calls) ->
      In b (map fst calls) -> b - 3600000 < a) ->
  tileExplorationHistory
    (after (forEach (fun call => checkExplorationRate (fst call) (snd call))
                    calls) self)
  = tileExplorationHistory self ++ map tileRecord calls.
Proof.
  induction calls as [|[now tileId] rest IH]; intros self H.
  - simpl. now rewrite app_nil_r.
  - rewrite after_forEach_cons. simpl fst. simpl snd.
    assert (E : tileExplorationHistory
                  (after (checkExplorationRate now tileId) self)
                = tileExplorationHistory self ++ [tileRecord (now, tileId)]).
    { unfold after. rewrite checkExplorationRate_run. simpl.
      f_equal. apply filter_all. apply Forall_forall. intros r Hr.
      unfold withinLast. apply Z.ltb_lt. apply H.
      - apply in_or_app. left. now apply in_map.
      - left. reflexivity. }
    rewrite IH; rewrite E.
    + now rewrite <- app_assoc.
    + intros a b Ha Hb. apply H.
      * rewrite map_app, <- app_assoc in Ha. exact Ha.
      * right. exact Hb.
Qed.

End ExplorationRate.

(** C7 -- Every call of [checkExplorationRate] records [{tileId, now}] at the
    end of the log and prunes the entries not newer than one hour; it counts
    the entries newer than 60000 ms, the new one included, and exactly when
    that count exceeds 8 it answers suspicious, ['rapid_exploration'], score
    85, with details holding the count and the threshold (the list of recent
    tile ids goes to the analytics call only); otherwise it answers
    ['exploration_rate_normal'].  Nine calls within 60 seconds of one another
    in a fresh session make the ninth answer ['rapid_exploration'] with
    count 9. *)
Theorem exploration_rate_check :
  (forall self now tileId,
      let log := tileExplorationHistory self in
      let entry := {| TileExploration.tileId := tileId;
                      TileExploration.timestamp := now |} in
      let recent :=
        filter (fun r => (now - 60000 <? TileExploration.timestamp r)%Z) log
        ++ [entry] in
      let outcome := result (checkExplorationRate now tileId) self in
      let self' := after (checkExplorationRate now tileId) self in
      tileExplorationHistory self'
      = filter (fun r => (now - 3600000 <? TileExploration.timestamp r)%Z) log
        ++ [entry]
      /\ Forall (fun r => (now - 3600000 < TileExploration.timestamp r)%Z)
                (tileExplorationHistory self')
      /\ locationHistory self' = locationHistory self
      /\ (8 < length recent ->
          outcome = Build_Result true "rapid_exploration" 85
                                 (ExplorationDetails (length recent) 8)
          /\ map tracked_details
                 (tracked (checkExplorationRate now tileId) self)
             = [RapidExploration (length recent) 8
                                 (map TileExploration.tileId recent)])
      /\ (length recent <= 8 ->
          outcome = Build_Result false "exploration_rate_normal" 0 null
          /\ tracked (checkExplorationRate now tileId) self = []))
  /\ (forall (earlier : list (Z * string)) now tileId,
         length earlier = 8 ->
         (forall a b, In a (now :: map fst earlier) ->
                      In b (now :: map fst earlier) -> (b - 60000 < a)%Z) ->
         result (checkExplorationRate now tileId)
                (after (forEach (fun call =>
                                   checkExplorationRate (fst call) (snd call))
                                earlier) fresh)
         = Build_Result true "rapid_exploration" 85 (ExplorationDetails 9 8)).
Proof.
  split.
  - intros self now tileId. cbv zeta. unfold result, after, tracked.
    rewrite checkExplorationRate_run. unfold withinLast, tileRecord.
    cbv zeta. simpl fst. simpl snd.
    unfold RAPID_EXPLORATION_THRESHOLD.
    split; [reflexivity|]. split; [|split; [reflexivity|split]].
    + apply Forall_app. split.
      * apply Forall_forall. intros r Hr. apply filter_In in Hr.
        now apply Z.ltb_lt.
      * repeat constructor. simpl. lia.
    + intros H. now rewrite (proj2 (Nat.ltb_lt _ _) H).
    + intros H. now rewrite (proj2 (Nat.ltb_ge _ _) H).
  - intros earlier now tileId Hlen Hnear. unfold result.
    rewrite checkExplorationRate_run. cbv zeta. simpl fst.
    unfold RAPID_EXPLORATION_THRESHOLD.
    rewrite log_after_calls.
    + simpl app. rewrite filter_all.
      * rewrite length_app, length_map, Hlen. reflexivity.
      * apply Forall_forall. intros r Hr. apply Z.ltb_lt. apply Hnear.
        -- right. apply in_map_iff in Hr. destruct Hr as [c [<- Hc]].
           simpl. now apply in_map.
        -- left. reflexivity.
    + simpl app. intros a b Ha Hb.
      assert ((b - 60000 < a)%Z); [|lia].
      apply Hnear; right; assumption.
Qed.

Lemma exploration_rate_check_witness :
  let earlier :=
    [(1000, "t1"); (2000, "t2"); (3000, "t3"); (4000, "t4"); (5000, "t5");
     (6000, "t6"); (7000, "t7"); (8000, "t8")]%Z%string in
  length earlier = 8
  /\ result (checkExplorationRate 9000 "t9")
            (after (forEach (fun call =>
                               checkExplorationRate (fst call) (snd call))
                            earlier) fresh)
     = Build_Result true "rapid_exploration" 85 (ExplorationDetails 9 8).
Proof.
  cbv zeta. split; [reflexivity|].
  apply (proj2 exploration_rate_check); [reflexivity|].
  simpl. intros a b Ha Hb.
  repeat (destruct Ha as [<-|Ha]; [|]); try contradiction;
    repeat (destruct Hb as [<-|Hb]; [|]); try contradiction; reflexivity.
Defined.

(** C7, as first stated, fails: on the ninth of nine calls made one second
    apart the returned details hold the count 9 and the threshold 8 and no
    list at all; the recent tile ids are in the analytics call. *)
Lemma exploration_details_hold_no_tile_list :
  let earlier :=
    [(1000, "t1"); (2000, "t2"); (3000, "t3"); (4000, "t4"); (5000, "t5");
     (6000, "t6"); (7000, "t7"); (8000, "t8")]%Z%string in
  let session :=
    after (forEach (fun call => checkExplorationRate (fst call) (snd call))
                   earlier) fresh in
  let outcome := result (checkExplorationRate 9000 "t9") session in
  let recent_tiles :=
    ["t1"; "t2"; "t3"; "t4"; "t5"; "t6"; "t7"; "t8"; "t9"]%string in
  reason outcome = "rapid_exploration"%string
  /\ entries (details outcome)
     = [("tilesPerMinute", VCount 9); ("threshold", VCount 8)]%string
  /\ ~ (exists key, In (key, VStrings recent_tiles) (entries (details outcome)))
  /\ map tracked_details (tracked (checkExplorationRate 9000 "t9") session)
     = [RapidExploration 9 8 recent_tiles].
Proof.
  cbv zeta. split; [reflexivity|]. split; [reflexivity|].
  split; [|reflexivity].
  intros [key H]. vm_compute in H.
  destruct H as [H|[H|[]]]; discriminate H.
Qed.

(** ** The range of risk scores *)

Lemma fixed_score_cases (r : SuspiciousActivityResult) :
  riskScore r = 0%float \/ riskScore r = 30%float \/ riskScore r = 70%float
  \/ riskScore r = 85%float \/ riskScore r = 95%float ->
  integer_in_0_100 (riskScore r) = true /\ in_0_100 (riskScore r) = true.
Proof.
  intros [-> | [-> | [-> | [-> | ->]]]]; split; vm_compute; reflexivity.
Qed.

(** C8 -- Every risk score the service produces is an integer within
    [0, 100].  The guards run only inside [checkLocationValidity], on the
    history that already holds the sample: there the speed check scores 0
    and the accuracy, pattern and teleport checks score 0, 30, 70 or 95, as
    does the verdict; the exploration-rate check scores 0 or 85 and the
    automation check 0 or 95.  The accuracy, pattern and teleport checks
    keep to these scores on every other history too, and the speed check
    stays within [0, 100] there. *)
Theorem risk_scores_within_0_100 haversine self newLocation now tileId :
  let self' := after (addLocationToHistory newLocation) self in
  Forall (fun outcome =>
            integer_in_0_100 (riskScore outcome) = true
            /\ in_0_100 (riskScore outcome) = true)
         [checkImpossibleSpeed haversine self' newLocation;
          checkLocationAccuracy newLocation;
          checkMovementPattern self' newLocation;
          checkTeleportation haversine self' newLocation;
          result (checkLocationValidity haversine newLocation) self;
          result (checkExplorationRate now tileId) self;
          result (checkAutomationPattern haversine) self]
  /\ Forall (fun outcome =>
               integer_in_0_100 (riskScore outcome) = true
               /\ in_0_100 (riskScore outcome) = true)
            [checkMovementPattern self newLocation;
             checkTeleportation haversine self newLocation]
  /\ in_0_100 (riskScore (checkImpossibleSpeed haversine self newLocation))
     = true.
Proof.
  cbv zeta.
  assert (P : forall state,
             integer_in_0_100
               (riskScore (checkMovementPattern state newLocation)) = true
             /\ in_0_100
                  (riskScore (checkMovementPattern state newLocation))
                = true).
  { intros state. apply fixed_score_cases.
    destruct (pattern_cases newLocation state) as [[r ->]|[d ->]];
      simpl; auto. }
  assert (T : forall state,
             integer_in_0_100
               (riskScore (checkTeleportation haversine state newLocation))
             = true
             /\ in_0_100
                  (riskScore (checkTeleportation haversine state newLocation))
                = true).
  { intros state. apply fixed_score_cases.
    destruct (teleport_cases haversine newLocation state)
      as [[r ->]|[d ->]]; simpl; auto 6. }
  split; [|split].
  - repeat (apply Forall_cons; [|]); try apply Forall_nil;
      try apply P; try apply T; apply fixed_score_cases.
    + rewrite speed_after_add. simpl. auto.
    + destruct (accuracy_cases newLocation) as [->|[d ->]]; simpl; auto.
    + pose proof (verdict_score_values haversine self newLocation) as V.
      cbv zeta in V. tauto.
    + unfold result. rewrite checkExplorationRate_run. cbv zeta.
      destruct (_ <? _); simpl; auto 6.
    + unfold result, checkAutomationPattern, bind, this. cbv zeta.
      destruct (_ <? 10); [simpl; auto|].
      destruct (_ || _); simpl; auto 6.
  - repeat (apply Forall_cons; [|]); try apply Forall_nil;
      [apply P|apply T].
  - unfold checkImpossibleSpeed.
    destruct (_ =? 0); [reflexivity|]. cbv zeta.
    destruct (gt _ MAX_HUMAN_SPEED && gt _ 5) eqn:E; [|reflexivity].
    apply andb_true_iff in E. destruct E as [E _]. simpl riskScore.
    now apply speed_score_range.
Qed.

(** ** The automation check *)

Lemma spec_mostRecent_slice (n : nat) (history : list LocationPoint) :
  spec_mostRecent n history = slice_last n history.
Proof.
  unfold spec_mostRecent, slice_last. now rewrite firstn_rev, rev_involutive.
Qed.

(** The loop over consecutive pairs, by index. *)
Lemma consecutive_by_index {A B : Type} (f : A -> A -> B) (d : A)
      (xs : list A) :
  consecutive f xs
  = map (fun i => f (nth (i - 1) xs d) (nth i xs d)) (seq 1 (length xs - 1)).
Proof.
  induction xs as [|a [|b rest] IH]; [reflexivity|reflexivity|].
  change (consecutive f (a :: b :: rest))
    with (f a b :: consecutive f (b :: rest)).
  rewrite IH. simpl length.
  replace (S (S (length rest)) - 1) with (S (length rest)) by lia.
  replace (S (length rest) - 1) with (length rest) by lia.
  change (seq 1 (S (length rest))) with (1 :: seq 2 (length rest)).
  rewrite <- (seq_shift (length rest) 1), map_cons, map_map.
  f_equal. apply map_ext_in. intros i Hi. apply in_seq in Hi.
  destruct i as [|j]; [lia|]. simpl. now rewrite Nat.sub_0_r.
Qed.

Lemma fold_left_add_map {A : Type} (g : A -> number) (xs : list A) :
  forall a,
    fold_left (fun sum x => PrimFloat.add sum (g x)) xs a
    = fold_left PrimFloat.add (map g xs) a.
Proof. induction xs as [|x rest IH]; intros a; simpl; auto. Qed.

Lemma detectRepetitivePattern_spec (locations : list LocationPoint) :
  detectRepetitivePattern locations = spec_repetitiveMovement locations.
Proof.
  destruct locations as [|a [|b [|c [|d [|e [|f rest]]]]]]; try reflexivity;
    unfold spec_repetitiveMovement; simpl; now rewrite ?andb_false_r.
Qed.

Lemma analyzeMovementPatterns_spec haversine self :
  analyzeMovementPatterns haversine self
  = spec_patterns haversine (spec_mostRecent 20 (locationHistory self)).
Proof.
  unfold analyzeMovementPatterns, spec_patterns. cbv zeta.
  rewrite spec_mostRecent_slice.
  set (recent := slice_last 20 (locationHistory self)).
  rewrite detectRepetitivePattern_spec.
  rewrite !(consecutive_by_index _ (sampleAt 0 0 0)).
  rewrite fold_left_add_map.
  unfold spec_perfectTiming, spec_unnaturalPrecision, spec_intervalVariance,
    spec_avgInterval, spec_mean, spec_timeIntervals, spec_distances,
    spec_sample.
  rewrite !length_map. reflexivity.
Qed.

(** C9 -- The automation check leaves the service as it is.  With fewer
    than 10 samples in the history it answers not suspicious,
    ['insufficient_data'].  Otherwise it analyses the most recent 20 samples
    (all of them when there are fewer) and answers suspicious,
    ['automation_detected'], score 95, exactly when the interval variance is
    below 100, or every step distance is strictly between 0 and 0.001 km, or
    each of the first three samples of the window matches the sample three
    places further within 1e-4 degrees on both axes; else it answers
    ['human_behavior'].  In both cases the details hold the three flags, the
    average interval and the interval variance. *)
Theorem automation_check_follows_spec haversine self :
  let history := locationHistory self in
  let window := spec_mostRecent 20 history in
  let patterns := spec_patterns haversine window in
  let flagged :=
    spec_perfectTiming window || spec_unnaturalPrecision haversine window
    || spec_repetitiveMovement window in
  let outcome := result (checkAutomationPattern haversine) self in
  after (checkAutomationPattern haversine) self = self
  /\ tracked (checkAutomationPattern haversine) self = []
  /\ (length history < 10 ->
      outcome = Build_Result false "insufficient_data" 0 null)
  /\ (10 <= length history ->
      length window = Nat.min (length history) 20
      /\ (exists older, history = older ++ window)
      /\ outcome
         = (if flagged
            then Build_Result true "automation_detected" 95
                              (PatternDetails patterns)
            else Build_Result false "human_behavior" 0
                              (PatternDetails patterns))
      /\ In ("averageInterval"%string, VNumber (spec_avgInterval window))
            (entries (details outcome))
      /\ In ("intervalVariance"%string,
             VNumber (spec_intervalVariance window))
            (entries (details outcome))).
Proof.
  cbv zeta.
  assert (Hrun : checkAutomationPattern haversine self
                 = (if length (locationHistory self) <? 10
                    then Build_Result false "insufficient_data" 0 null
                    else
                      let patterns := analyzeMovementPatterns haversine self in
                      if perfectTiming patterns || unnaturalPrecision patterns
                         || repetitiveMovement patterns
                      then Build_Result true "automation_detected" 95
                                        (PatternDetails patterns)
                      else Build_Result false "human_behavior" 0
                                        (PatternDetails patterns),
                    self, [])).
  { unfold checkAutomationPattern, bind, this. cbv zeta.
    destruct (_ <? 10); [reflexivity|]. destruct (_ || _); reflexivity. }
  cbv zeta in Hrun. rewrite analyzeMovementPatterns_spec in Hrun.
  unfold after, tracked, result. rewrite Hrun. cbn [fst snd].
  split; [reflexivity|]. split; [reflexivity|]. split.
  - intros H. now rewrite (proj2 (Nat.ltb_lt _ _) H).
  - intros H. rewrite (proj2 (Nat.ltb_ge _ _) H).
    split; [rewrite spec_mostRecent_slice; apply slice_last_length|].
    split; [rewrite spec_mostRecent_slice; eexists; apply slice_last_suffix|].
    split; [reflexivity|].
    destruct (_ || _); (split; [do 3 right|do 4 right]; left; reflexivity).
Qed.

Lemma automation_check_follows_spec_witness :
  let history :=
    map (fun i => sampleAt (of_nat i * 0.000001) 0 (of_nat i * 1000))
        (seq 1 20) in
  let self := {| locationHistory := history; tileExplorationHistory := [] |} in
  let outcome := result (checkAutomationPattern Coordinate.haversine) self in
  10 <= length history
  /\ reason outcome = "automation_detected"%string
  /\ In ("intervalVariance"%string, VNumber 0) (entries (details outcome)).
Proof.
  cbv zeta.
  set (self := {| locationHistory :=
                    map (fun i => sampleAt (of_nat i * 0.000001) 0
                                           (of_nat i * 1000)) (seq 1 20);
                  tileExplorationHistory := [] |}).
  assert (Hlen : 10 <= length (locationHistory self))
    by (unfold self; cbn [locationHistory]; rewrite length_map, length_seq;
        lia).
  split; [exact Hlen|].
  destruct (automation_check_follows_spec Coordinate.haversine self)
    as (_ & _ & _ & H).
  destruct (H Hlen) as (_ & _ & -> & _ & Hvar).
  split; [vm_compute; reflexivity|].
  vm_compute. auto 6.
Defined.

(** * Further properties of the service *)

(** ** What [checkLocationValidity] reports *)

Lemma checkLocationValidity_tracked haversine newLocation self :
  tracked (checkLocationValidity haversine newLocation) self
  = (let self' := after (addLocationToHistory newLocation) self in
     let suspiciousChecks :=
       filter isSuspicious (runChecks haversine self' newLocation) in
     if 0 <? length suspiciousChecks then
       [ {| suspiciousType := "location_spoofing";
            tracked_latitude := latitude newLocation;
            tracked_longitude := longitude newLocation;
            tracked_accuracy := accuracy newLocation;
            tracked_speed := speed newLocation;
            tracked_details :=
              LocationSpoofing
                (map reason suspiciousChecks)
                (length (locationHistory self'))
                (reason (result (checkLocationValidity haversine newLocation)
                                self)) |} ]
     else []).
Proof.
  rewrite checkLocationValidity_result.
  unfold checkLocationValidity. rewrite !tracked_bind.
  set (self' := after (addLocationToHistory newLocation) self).
  change (after this self') with self'.
  change (result this self') with self'. cbv zeta.
  assert (T : tracked (addLocationToHistory newLocation) self = [])
    by (unfold tracked; now rewrite addLocationToHistory_run).
  rewrite T. change (tracked this self') with (@nil TrackedActivity).
  destruct (0 <? _); [rewrite tracked_bind|]; reflexivity.
Qed.

(** Finds a literal in a literal list. *)
Ltac pick_member := cbn; repeat first [left; reflexivity | right].

(** X1 -- Whatever the history, the sample and the distance function, the
    speed check inside [checkLocationValidity] is not suspicious, so the
    verdict never reports ['impossible_speed']: its reason is one of
    ['location_valid'], ['poor_accuracy'], ['identical_coordinates'] and
    ['teleportation'], and the checks listed in its details carry one of the
    last three. *)
Theorem verdict_never_reports_impossible_speed haversine self newLocation :
  let self' := after (addLocationToHistory newLocation) self in
  let verdict := result (checkLocationValidity haversine newLocation) self in
  isSuspicious (checkImpossibleSpeed haversine self' newLocation) = false
  /\ In (reason verdict)
        ["location_valid"; "poor_accuracy"; "identical_coordinates";
         "teleportation"]%string
  /\ match details verdict with
     | SuspiciousChecks checks =>
         Forall (fun check =>
                   In (reason check)
                      ["poor_accuracy"; "identical_coordinates";
                       "teleportation"]%string)
                checks
     | _ => isSuspicious verdict = false
     end.
Proof.
  cbv zeta. rewrite checkLocationValidity_result. unfold runChecks. cbv zeta.
  rewrite speed_after_add. split; [reflexivity|].
  set (self' := after (addLocationToHistory newLocation) self).
  destruct (accuracy_cases newLocation) as [->|[da ->]];
    destruct (pattern_cases newLocation self') as [[rp ->]|[dp ->]];
    destruct (teleport_cases haversine newLocation self')
      as [[rt ->]|[dt ->]];
    (split; [pick_member|]);
    cbn [filter isSuspicious length Nat.ltb Nat.leb details];
    first [ reflexivity
          | repeat (apply Forall_cons; [pick_member|]); apply Forall_nil ].
Qed.

(** X2 -- A call to [trackSuspiciousActivity] is made exactly when the
    verdict is suspicious, and then exactly one: of type
    ['location_spoofing'], carrying the sample's position, accuracy and
    speed, the reasons of the checks listed in the verdict's details, the
    length of the history after the append, and the verdict's reason. *)
Theorem suspicious_verdict_tracked_once haversine self newLocation :
  let verdict := result (checkLocationValidity haversine newLocation) self in
  let self' := after (checkLocationValidity haversine newLocation) self in
  let calls := tracked (checkLocationValidity haversine newLocation) self in
  match details verdict with
  | SuspiciousChecks checks =>
      isSuspicious verdict = true
      /\ calls
         = [ {| suspiciousType := "location_spoofing";
                tracked_latitude := latitude newLocation;
                tracked_longitude := longitude newLocation;
                tracked_accuracy := accuracy newLocation;
                tracked_speed := speed newLocation;
                tracked_details :=
                  LocationSpoofing (map reason checks)
                                   (length (locationHistory self'))
                                   (reason verdict) |} ]
  | _ => isSuspicious verdict = false /\ calls = []
  end.
Proof.
  cbv zeta. rewrite checkLocationValidity_tracked, checkLocationValidity_after.
  rewrite checkLocationValidity_result. cbv zeta.
  destruct (0 <? _); simpl; auto.
Qed.

(** ** The two buffers *)

Lemma runChecks_history haversine s1 s2 newLocation :
  locationHistory s1 = locationHistory s2 ->
  runChecks haversine s1 newLocation = runChecks haversine s2 newLocation.
Proof.
  intros E.
  unfold runChecks, checkImpossibleSpeed, checkMovementPattern,
    checkTeleportation, lastLocationOf.
  now rewrite E.
Qed.

(** X3 -- The two buffers do not interfere.  The verdict of
    [checkLocationValidity], what it tracks, the history it leaves and the
    outcome of [checkAutomationPattern] depend on the location history only,
    not on the tile log; the outcome of [checkExplorationRate], what it
    tracks and the log it leaves depend on the tile log only. *)
Theorem buffers_do_not_interfere haversine s1 s2 newLocation now tileId :
  (locationHistory s1 = locationHistory s2 ->
   result (checkLocationValidity haversine newLocation) s1
   = result (checkLocationValidity haversine newLocation) s2
   /\ tracked (checkLocationValidity haversine newLocation) s1
      = tracked (checkLocationValidity haversine newLocation) s2
   /\ locationHistory (after (checkLocationValidity haversine newLocation) s1)
      = locationHistory (after (checkLocationValidity haversine newLocation) s2)
   /\ result (checkAutomationPattern haversine) s1
      = result (checkAutomationPattern haversine) s2)
  /\ (tileExplorationHistory s1 = tileExplorationHistory s2 ->
      result (checkExplorationRate now tileId) s1
      = result (checkExplorationRate now tileId) s2
      /\ tracked (checkExplorationRate now tileId) s1
         = tracked (checkExplorationRate now tileId) s2
      /\ tileExplorationHistory (after (checkExplorationRate now tileId) s1)
         = tileExplorationHistory (after (checkExplorationRate now tileId) s2)).
Proof.
  split; intros E.
  - assert (H : locationHistory (after (addLocationToHistory newLocation) s1)
                = locationHistory (after (addLocationToHistory newLocation) s2)).
    { destruct (after_addLocationToHistory newLocation s1) as [-> _].
      destruct (after_addLocationToHistory newLocation s2) as [-> _].
      now rewrite E. }
    assert (R : result (checkLocationValidity haversine newLocation) s1
                = result (checkLocationValidity haversine newLocation) s2).
    { rewrite !checkLocationValidity_result. cbv zeta.
      now rewrite (runChecks_history haversine _ _ newLocation H). }
    split; [exact R|]. split; [|split].
    + rewrite !checkLocationValidity_tracked. cbv zeta.
      now rewrite (runChecks_history haversine _ _ newLocation H), H, R.
    + now rewrite !checkLocationValidity_after.
    + unfold result, checkAutomationPattern, bind, this, ret. simpl.
      unfold analyzeMovementPatterns. rewrite E.
      destruct (_ <? 10); [reflexivity|]. cbv zeta.
      now destruct (_ || _).
  - unfold result, tracked, after. rewrite !checkExplorationRate_run.
    cbv zeta. simpl. now rewrite E.
Qed.

Lemma buffers_do_not_interfere_witness :
  let s1 := {| locationHistory := [sampleAt 0 0 0];
               tileExplorationHistory := [] |} in
  let s2 := {| locationHistory := [sampleAt 0 0 0];
               tileExplorationHistory := [tileRecord (5%Z, "t"%string)] |} in
  locationHistory s1 = locationHistory s2
  /\ result (checkLocationValidity Coordinate.haversine (sampleAt 1 1 1000)) s1
     = result (checkLocationValidity Coordinate.haversine (sampleAt 1 1 1000))
              s2.
Proof.
  cbv zeta. split; [reflexivity|].
  exact (proj1 (proj1 (buffers_do_not_interfere
                         Coordinate.haversine
                         {| locationHistory := [sampleAt 0 0 0];
                            tileExplorationHistory := [] |}
                         {| locationHistory := [sampleAt 0 0 0];
                            tileExplorationHistory := [tileRecord (5%Z, "t"%string)] |}
                         (sampleAt 1 1 1000) 0%Z "t"%string) eq_refl)).
Defined.

(** ** Sequences of calls *)

Lemma checkAutomationPattern_after haversine self :
  after (checkAutomationPattern haversine) self = self.
Proof.
  unfold after, checkAutomationPattern, bind, this, ret. simpl.
  destruct (_ <? 10); [reflexivity|]. cbv zeta. now destruct (_ || _).
Qed.

Lemma after_perform_history haversine call self submitted :
  locationHistory self = slice_last MAX_HISTORY submitted ->
  locationHistory (after (perform haversine call) self)
  = slice_last MAX_HISTORY (samplesSinceClear [call] submitted).
Proof.
  intros H. destruct call as [newLocation|now tileId| | |]; simpl perform;
    unfold samplesSinceClear; simpl fold_left.
  - rewrite after_bind, checkLocationValidity_after.
    change (after (ret tt) ?s) with s.
    destruct (after_addLocationToHistory newLocation self) as [-> _].
    rewrite H. apply push_shift_slice.
  - rewrite after_bind. change (after (ret tt) ?s) with s.
    unfold after. now rewrite checkExplorationRate_run.
  - rewrite after_bind. change (after (ret tt) ?s) with s.
    now rewrite checkAutomationPattern_after.
  - exact H.
  - reflexivity.
Qed.

Lemma samplesSinceClear_cons call calls submitted :
  samplesSinceClear (call :: calls) submitted
  = samplesSinceClear calls (samplesSinceClear [call] submitted).
Proof. reflexivity. Qed.

Lemma history_after_calls haversine calls : forall self submitted,
  locationHistory self = slice_last MAX_HISTORY submitted ->
  locationHistory (after (forEach (perform haversine) calls) self)
  = slice_last MAX_HISTORY (samplesSinceClear calls submitted).
Proof.
  induction calls as [|call rest IH]; intros self submitted H.
  - exact H.
  - rewrite after_forEach_cons, samplesSinceClear_cons.
    apply IH. now apply after_perform_history.
Qed.

(** X4 -- Whatever public methods a client calls on a fresh service, in
    whatever order and with whatever arguments, the location history holds at
    most 100 samples: they are the last 100 (or all, when fewer) of the
    samples submitted to [checkLocationValidity] since the last
    [clearHistory], in the order they were submitted. *)
Theorem history_invariant_over_calls haversine (calls : list Call) :
  let self := after (forEach (perform haversine) calls) fresh in
  length (locationHistory self) <= 100
  /\ (exists evicted,
         samplesSinceClear calls [] = evicted ++ locationHistory self)
  /\ length (locationHistory self)
     = Nat.min (length (samplesSinceClear calls [])) 100.
Proof.
  cbv zeta.
  rewrite (history_after_calls haversine calls fresh []) by reflexivity.
  rewrite slice_last_length. unfold MAX_HISTORY. split; [lia|].
  split; [|reflexivity]. eexists. apply slice_last_suffix.
Qed.

(** ** The anti-cheat step of [recordLocationData] *)

(** X5 -- [recordLocationData] rejects a location only on a suspicious
    verdict with a score above 80.  Since the teleport check compares the
    sample with itself, such a verdict needs a distance function that puts
    the sample more than 1 km from itself: with any other, whatever the
    session, the position, the time, the accuracy and the speed, the location
    is not rejected and the score is 0, 30 or 70. *)
Theorem recordLocationData_never_rejects haversine self now lat lng
        accuracy speed :
  gt (haversine lat lng lat lng) 1 = false ->
  let outcome :=
    result (recordLocationData_fraudCheck haversine now lat lng accuracy speed)
           self in
  snd outcome = false
  /\ (riskScore (fst outcome) = 0 \/ riskScore (fst outcome) = 30
      \/ riskScore (fst outcome) = 70)%float
  /\ reason (fst outcome) <> "teleportation"%string.
Proof.
  intros Hself. cbv zeta.
  unfold recordLocationData_fraudCheck. cbv zeta.
  set (locationPoint := {| latitude := lat; longitude := lng;
                           timestamp := now;
                           accuracy := or_number accuracy 50;
                           speed := speed |}).
  rewrite result_bind. unfold result at 1. simpl fst. simpl snd.
  rewrite checkLocationValidity_result. unfold runChecks. cbv zeta.
  rewrite speed_after_add, teleport_after_add. cbv zeta.
  simpl latitude. simpl longitude. rewrite Hself. simpl andb. cbv iota.
  set (self' := after (addLocationToHistory locationPoint) self).
  destruct (accuracy_cases locationPoint) as [->|[da ->]];
    destruct (pattern_cases locationPoint self') as [[rp ->]|[dp ->]];
    (split; [reflexivity|]); (split; [lazy; auto|]); lazy; discriminate.
Qed.

Lemma recordLocationData_never_rejects_witness :
  gt (Coordinate.haversine 48.85 2.35 48.85 2.35) 1 = false
  /\ snd (result (recordLocationData_fraudCheck
                    Coordinate.haversine 1000 48.85 2.35 (Some 500%float) None)
                 fresh)
     = false.
Proof.
  assert (Hself : gt (Coordinate.haversine 48.85 2.35 48.85 2.35) 1 = false)
    by (vm_compute; reflexivity).
  split; [exact Hself|].
  exact (proj1 (recordLocationData_never_rejects
                  Coordinate.haversine fresh 1000 48.85 2.35
                  (Some 500%float) None Hself)).
Defined.

(** ** How many discoveries it takes *)





(** ** A device that does not move *)

Lemma finite_self_difference (x bound : number) :
  isFiniteNumber x = true ->
  PrimFloat.ltb 0 bound = true ->
  lt (Math_abs (PrimFloat.sub x x)) bound = true.
Proof.
  unfold isFiniteNumber, lt, Math_abs.
  rewrite !FloatAxioms.ltb_spec, !FloatAxioms.abs_spec, FloatAxioms.sub_spec.
  replace (Prim2SF infinity) with (S754_infinity false)
    by (symmetry; vm_compute; reflexivity).
  replace (Prim2SF 0) with (S754_zero false)
    by (symmetry; vm_compute; reflexivity).
  destruct (Prim2SF x) as [s|s| |s m e]; intros F B.
  - destruct s; exact B.
  - destruct s; discriminate F.
  - discriminate F.
  - unfold SF64sub, SFsub. rewrite Z.sub_diag. exact B.
Qed.

Lemma Forall_slice_last {A : Type} (P : A -> Prop) (n : nat) (xs : list A) :
  Forall P xs -> Forall P (slice_last n xs).
Proof.
  intros H. apply Forall_forall. intros x Hx.
  rewrite Forall_forall in H. apply H.
  rewrite (slice_last_suffix n xs). apply in_or_app. now right.
Qed.

Lemma detectRepetitivePattern_same_place (lat lon : number) locations :
  6 <= length locations ->
  isFiniteNumber lat = true -> isFiniteNumber lon = true ->
  Forall (fun p => latitude p = lat /\ longitude p = lon) locations ->
  detectRepetitivePattern locations = true.
Proof.
  intros Hlen Flat Flon Hall.
  destruct locations as [|a [|b [|c [|d [|e [|f rest]]]]]];
    simpl in Hlen; try lia.
  apply Forall_cons_iff in Hall. destruct Hall as [[La Ga] Hall].
  apply Forall_cons_iff in Hall. destruct Hall as [[Lb Gb] Hall].
  apply Forall_cons_iff in Hall. destruct Hall as [[Lc Gc] Hall].
  apply Forall_cons_iff in Hall. destruct Hall as [[Ld Gd] Hall].
  apply Forall_cons_iff in Hall. destruct Hall as [[Le Ge] Hall].
  apply Forall_cons_iff in Hall. destruct Hall as [[Lf Gf] _].
  unfold detectRepetitivePattern, every_indexed, slice. simpl.
  rewrite La, Lb, Lc, Ld, Le, Lf, Ga, Gb, Gc, Gd, Ge, Gf.
  assert (B : PrimFloat.ltb 0 0.0001 = true) by (vm_compute; reflexivity).
  now rewrite !(finite_self_difference lat 0.0001 Flat B),
    !(finite_self_difference lon 0.0001 Flon B).
Qed.

(** X7 -- A device that does not move is reported as automated: when the
    history holds at least 10 samples, all at one finite position, the
    automation check answers suspicious, ['automation_detected'], score 95,
    with [repetitiveMovement] set, whatever the timestamps and whatever the
    distance function. *)
Theorem stationary_device_flagged_as_automated haversine self lat lon :
  10 <= length (locationHistory self) ->
  isFiniteNumber lat = true -> isFiniteNumber lon = true ->
  Forall (fun p => latitude p = lat /\ longitude p = lon)
         (locationHistory self) ->
  result (checkAutomationPattern haversine) self
  = Build_Result true "automation_detected" 95
                 (PatternDetails (analyzeMovementPatterns haversine self))
  /\ repetitiveMovement (analyzeMovementPatterns haversine self) = true.
Proof.
  intros Hlen Flat Flon Hall.
  assert (R : repetitiveMovement (analyzeMovementPatterns haversine self)
              = true).
  { unfold analyzeMovementPatterns. cbv zeta. cbn [repetitiveMovement].
    apply (detectRepetitivePattern_same_place lat lon); auto.
    - rewrite slice_last_length. lia.
    - now apply Forall_slice_last. }
  split; [|exact R].
  unfold result, checkAutomationPattern, bind, this, ret. cbn [fst snd].
  rewrite (proj2 (Nat.ltb_ge _ _) Hlen). cbv zeta.
  rewrite R, orb_true_r. reflexivity.
Qed.

Lemma stationary_device_flagged_as_automated_witness :
  let history :=
    map (fun i => sampleAt 48.85 2.35 (of_nat i * 7919)) (seq 1 12) in
  let self := {| locationHistory := history; tileExplorationHistory := [] |} in
  10 <= length history
  /\ isFiniteNumber 48.85 = true
  /\ isFiniteNumber 2.35 = true
  /\ reason (result (checkAutomationPattern Coordinate.haversine) self)
     = "automation_detected"%string.
Proof.
  cbv zeta.
  set (history := map (fun i => sampleAt 48.85 2.35 (of_nat i * 7919))
                      (seq 1 12)).
  assert (Hlen : 10 <= length history)
    by (unfold history; rewrite length_map, length_seq; lia).
  assert (Flat : isFiniteNumber 48.85 = true) by (vm_compute; reflexivity).
  assert (Flon : isFiniteNumber 2.35 = true) by (vm_compute; reflexivity).
  assert (Hall : Forall (fun p => latitude p = 48.85%float
                                  /\ longitude p = 2.35%float) history)
    by (unfold history; apply Forall_forall; intros p Hp;
        apply in_map_iff in Hp; destruct Hp as [i [<- _]]; split; reflexivity).
  split; [exact Hlen|]. split; [exact Flat|]. split; [exact Flon|].
  rewrite (proj1 (stationary_device_flagged_as_automated
                    Coordinate.haversine
                    {| locationHistory := history;
                       tileExplorationHistory := [] |}
                    48.85 2.35 Hlen Flat Flon Hall)).
  reflexivity.
Defined.

(** * AnalyticsService *)

(** ** The risk score of a tracked activity *)

(** X8 -- The [risk_score] that [AnalyticsService] computes for the calls
    [FraudDetectionService] makes does not depend on what was detected:
    [calculateRiskScore] reads [details.impossibleSpeed] and
    [details.tilesPerMinute], properties that the details objects of the
    service do not have, so every ['location_spoofing'] event scores 60 and
    every ['rapid_exploration'] event scores 70, whatever the verdict and
    however many tiles were counted. *)
Theorem tracked_risk_score_is_constant StringToNumber haversine self
        newLocation now tileId :
  Forall (fun activity => Analytics.risk_score StringToNumber activity
                          = 60%float)
         (tracked (checkLocationValidity haversine newLocation) self)
  /\ Forall (fun activity => Analytics.risk_score StringToNumber activity
                             = 70%float)
            (tracked (checkExplorationRate now tileId) self).
Proof.
  split.
  - rewrite checkLocationValidity_tracked. cbv zeta.
    destruct (0 <? _); repeat constructor.
  - unfold tracked. rewrite checkExplorationRate_run. cbv zeta. cbn [snd].
    destruct (_ <? _); repeat constructor.
Qed.

(** X9 -- [calculateRiskScore] returns one of 50, 60, 70, 80, 90 and 95
    (its [Math.min(score, 100)] never cuts): 60 or 80 for
    ['location_spoofing'], 70 or 90 for ['rapid_exploration'], 95 for
    ['automation_detected'], and 50 for every other type, whatever the
    details. *)
Theorem calculateRiskScore_values StringToNumber suspiciousType details :
  let score :=
    Analytics.calculateRiskScore StringToNumber suspiciousType details in
  if String.eqb suspiciousType "location_spoofing"
  then score = 60%float \/ score = 80%float
  else if String.eqb suspiciousType "rapid_exploration"
       then score = 70%float \/ score = 90%float
       else if String.eqb suspiciousType "automation_detected"
            then score = 95%float
            else score = 50%float.
Proof.
  cbv zeta. unfold Analytics.calculateRiskScore.
  destruct (String.eqb suspiciousType "location_spoofing").
  - destruct (ToBoolean _); [right|left]; reflexivity.
  - destruct (String.eqb suspiciousType "rapid_exploration").
    + destruct (gt _ _); [right|left]; reflexivity.
    + destruct (String.eqb suspiciousType "automation_detected");
        reflexivity.
Qed.

(** ** The event queue *)

Section QueueFacts.

Variable Body : Type.

(** X10 -- [addEvent] never reorders: the events its overflow trim discards,
    then the batch it hands to [sendEventsBatch], then the queue it leaves,
    are the old queue followed by the new event.  A batch is handed over
    exactly when the queue, with the new event, holds 50 events or more, and
    is then of 50 events; events are discarded exactly when it holds more
    than 500, and then the 50 oldest are. *)
Theorem addEvent_keeps_order (event : Analytics.GameEvent Body)
        (queue : list (Analytics.GameEvent Body)) :
  let discarded := fst (fst (Analytics.addEvent Body event queue)) in
  let batch := snd (fst (Analytics.addEvent Body event queue)) in
  let rest := snd (Analytics.addEvent Body event queue) in
  discarded ++ match batch with Some events => events | None => [] end ++ rest
  = queue ++ [event]
  /\ match batch with
     | Some events => 50 <= length queue + 1 /\ length events = 50
     | None => length queue + 1 < 50
     end
  /\ length discarded = (if 500 <? length queue + 1 then 50 else 0).
Proof.
  cbv zeta. unfold Analytics.addEvent. cbv zeta.
  assert (Hl : length (queue ++ [event]) = length queue + 1)
    by (rewrite length_app; reflexivity).
  unfold Analytics.MAX_QUEUE_SIZE, Analytics.BATCH_SIZE,
    Analytics.splice_front.
  rewrite Hl.
  destruct (Nat.ltb_spec 500 (length queue + 1)) as [Hbig|Hbig].
  - assert (Hs : length (skipn 50 (queue ++ [event])) = length queue + 1 - 50)
      by (rewrite length_skipn; lia).
    destruct (Nat.leb_spec 50 (length (skipn 50 (queue ++ [event]))))
      as [Hb|Hb]; [|lia].
    unfold Analytics.flushEvents_take, Analytics.BATCH_SIZE,
      Analytics.splice_front.
    destruct (Nat.eqb_spec (length (skipn 50 (queue ++ [event]))) 0)
      as [E|_]; [lia|].
    cbn [fst snd]. rewrite !firstn_skipn.
    repeat split; try lia; rewrite length_firstn; lia.
  - destruct (Nat.leb_spec 50 (length (queue ++ [event]))) as [Hb|Hb];
      rewrite Hl in Hb.
    + unfold Analytics.flushEvents_take, Analytics.BATCH_SIZE,
        Analytics.splice_front.
      destruct (Nat.eqb_spec (length (queue ++ [event])) 0) as [E|_]; [lia|].
      cbn [fst snd app]. rewrite firstn_skipn.
      repeat split; try lia. rewrite length_firstn. lia.
    + cbn [fst snd app]. repeat split. exact Hb.
Qed.

(** X11 -- While no send fails the queue stays below the batch size: on a
    queue of fewer than 50 events [addEvent] discards nothing; the fiftieth
    event makes it hand the whole queue, new event included, to
    [sendEventsBatch] and leaves the queue empty; before that it hands over
    nothing and the event just joins the queue. *)
Theorem addEvent_below_batch_size (event : Analytics.GameEvent Body)
        (queue : list (Analytics.GameEvent Body)) :
  length queue < 50 ->
  Analytics.addEvent Body event queue
  = (if length queue =? 49
     then ([], Some (queue ++ [event]), [])
     else ([], None, queue ++ [event]))
  /\ length (snd (Analytics.addEvent Body event queue)) < 50.
Proof.
  intros H. unfold Analytics.addEvent. cbv zeta.
  assert (Hl : length (queue ++ [event]) = length queue + 1)
    by (rewrite length_app; reflexivity).
  unfold Analytics.MAX_QUEUE_SIZE, Analytics.BATCH_SIZE. rewrite Hl.
  destruct (Nat.ltb_spec 500 (length queue + 1)) as [Hbig|_]; [lia|].
  rewrite Hl.
  destruct (Nat.eqb_spec (length queue) 49) as [E|E].
  - destruct (Nat.leb_spec 50 (length queue + 1)) as [_|Hb]; [|lia].
    unfold Analytics.flushEvents_take, Analytics.BATCH_SIZE,
      Analytics.splice_front. rewrite Hl.
    destruct (Nat.eqb_spec (length queue + 1) 0) as [E0|_]; [lia|].
    rewrite firstn_all2, skipn_all2 by lia. split; [reflexivity|simpl; lia].
  - destruct (Nat.leb_spec 50 (length queue + 1)) as [Hb|_]; [lia|].
    split; [reflexivity|]. cbn [snd]. lia.
Qed.

Lemma flushEvents_failed_rev (eventsToSend : list (Analytics.GameEvent Body)) :
  forall queue,
  Analytics.flushEvents_failed Body eventsToSend queue
  = rev (map (Analytics.retried Body)
             (filter (Analytics.retriable Body) eventsToSend))
    ++ queue.
Proof.
  unfold Analytics.flushEvents_failed.
  induction eventsToSend as [|e rest IH]; intros queue; [reflexivity|].
  simpl. rewrite IH. destruct (Analytics.retriable Body e); [|reflexivity].
  simpl. now rewrite <- app_assoc.
Qed.

(** X12 -- When a send fails, the events of the batch that had been retried
    fewer than three times go back to the front of the queue, in reverse
    order, each with its retry count raised by one, so between 1 and 3; the
    others are dropped.  No event therefore goes back more than three
    times. *)
Theorem failed_batch_requeued
        (eventsToSend queue : list (Analytics.GameEvent Body)) :
  let requeued :=
    rev (map (Analytics.retried Body)
             (filter (Analytics.retriable Body) eventsToSend)) in
  Analytics.flushEvents_failed Body eventsToSend queue = requeued ++ queue
  /\ Forall (fun event =>
               exists n, Analytics.retry_count event = Some n /\ 1 <= n <= 3)
            requeued
  /\ forall event : Analytics.GameEvent Body,
       Analytics.retriable Body
         (Analytics.retried Body
            (Analytics.retried Body (Analytics.retried Body event)))
       = false.
Proof.
  cbv zeta. split; [apply flushEvents_failed_rev|]. split.
  - apply Forall_rev, Forall_map, Forall_forall. intros e He.
    apply filter_In in He. destruct He as [_ He].
    unfold Analytics.retriable in He. unfold Analytics.retried. simpl.
    destruct (Analytics.retry_count e) as [n|].
    + exists (n + 1). split; [reflexivity|].
      apply orb_true_iff in He.
      destruct He as [He|He];
        [apply Nat.eqb_eq in He|apply Nat.ltb_lt in He]; lia.
    + exists 1. split; [reflexivity|lia].
  - intros e. unfold Analytics.retriable, Analytics.retried. simpl.
    destruct (Analytics.retry_count e) as [n|]; [|reflexivity].
    apply orb_false_iff. split; [apply Nat.eqb_neq|apply Nat.ltb_ge]; lia.
Qed.

End QueueFacts.

Lemma addEvent_below_batch_size_witness :
  let event := {| Analytics.body := tt; Analytics.retry_count := None |} in
  length (repeat event 49) < 50
  /\ Analytics.addEvent unit event (repeat event 49)
     = ([], Some (repeat event 50), []).
Proof.
  cbv zeta.
  assert (H : length (repeat {| Analytics.body := tt;
                                Analytics.retry_count := None |} 49) < 50)
    by (rewrite repeat_length; lia).
  split; [exact H|].
  rewrite (proj1 (addEvent_below_batch_size
                    unit {| Analytics.body := tt;
                            Analytics.retry_count := None |} _ H)).
  reflexivity.
Defined.

(** * ABTestService *)

(** ** The hash of a user and a test *)

Lemma ToInt32_congruent (a b : Z) :
  (a mod 2 ^ 32 = b mod 2 ^ 32)%Z -> ABTest.ToInt32 a = ABTest.ToInt32 b.
Proof.
  intros H. unfold ABTest.ToInt32. f_equal.
  rewrite <- (Z.add_mod_idemp_l a), <- (Z.add_mod_idemp_l b) by lia.
  now rewrite H.
Qed.

Lemma ToInt32_mod (a : Z) : (ABTest.ToInt32 a mod 2 ^ 32 = a mod 2 ^ 32)%Z.
Proof.
  unfold ABTest.ToInt32.
  rewrite Zminus_mod, Z.mod_mod by lia.
  rewrite <- Zminus_mod. f_equal. lia.
Qed.

Lemma ToInt32_range (a : Z) : (- 2 ^ 31 <= ABTest.ToInt32 a < 2 ^ 31)%Z.
Proof.
  unfold ABTest.ToInt32.
  pose proof (Z.mod_pos_bound (a + 2 ^ 31) (2 ^ 32)). lia.
Qed.

Lemma hashStep_polynomial (h c : Z) :
  ABTest.hashStep (ABTest.ToInt32 h) c = ABTest.ToInt32 (31 * h + c).
Proof.
  unfold ABTest.hashStep. cbv zeta. rewrite Z.land_diag.
  apply ToInt32_congruent.
  rewrite Z.shiftl_mul_pow2 by lia.
  rewrite Z.add_mod, Zminus_mod, !ToInt32_mod by lia.
  rewrite (Z.mul_mod (ABTest.ToInt32 (ABTest.ToInt32 h))) by lia.
  rewrite !ToInt32_mod.
  rewrite <- Z.mul_mod, <- Zminus_mod, <- Z.add_mod by lia.
  f_equal. lia.
Qed.

Lemma fold_hashStep_polynomial (codes : list Z) : forall h,
  fold_left ABTest.hashStep codes (ABTest.ToInt32 h)
  = ABTest.ToInt32 (fold_left (fun acc c => 31 * acc + c)%Z codes h).
Proof.
  induction codes as [|c rest IH]; intros h; [reflexivity|].
  simpl. rewrite hashStep_polynomial. apply IH.
Qed.

(** X13 -- The hash of [hashUserId] is the polynomial hash of the char codes
    of [userId + '_' + testName] in base 31, wrapped to 32 bits and taken in
    absolute value: the 32-bit wrap made at every turn of the loop is the
    wrap of the exact sum.  It lies between 0 and 2^31 inclusive, so the
    buckets [hash % 100] and [hash % 1000] are never negative. *)
Theorem hashUserId_is_polynomial_hash (userId testName : string) :
  let codes := ABTest.charCodes (userId ++ "_" ++ testName) in
  ABTest.hashUserId userId testName
  = Z.abs (ABTest.ToInt32 (fold_left (fun acc c => 31 * acc + c)%Z codes 0%Z))
  /\ (0 <= ABTest.hashUserId userId testName <= 2 ^ 31)%Z
  /\ (0 <= Z.rem (ABTest.hashUserId userId testName) 100 < 100)%Z
  /\ (0 <= Z.rem (ABTest.hashUserId userId testName) 1000 < 1000)%Z.
Proof.
  cbv zeta. unfold ABTest.hashUserId, ABTest.hashCodes.
  set (codes := ABTest.charCodes (userId ++ "_" ++ testName)).
  set (p := fold_left (fun acc c => (31 * acc + c)%Z) codes 0%Z).
  assert (E : fold_left ABTest.hashStep codes 0%Z = ABTest.ToInt32 p)
    by exact (fold_hashStep_polynomial codes 0%Z).
  rewrite E.
  pose proof (ToInt32_range p) as R.
  assert (A : (0 <= Z.abs (ABTest.ToInt32 p) <= 2 ^ 31)%Z) by lia.
  split; [reflexivity|]. split; [exact A|].
  split; apply Z.rem_bound_pos; lia.
Qed.

(** ** Choosing a variant *)

Lemma assignFrom_member (variants : list ABTest.ABTestVariant) :
  forall cumulativeWeight hashBucket,
    match ABTest.assignFrom cumulativeWeight hashBucket variants with
    | Some variant => In variant variants
    | None => True
    end.
Proof.
  induction variants as [|v rest IH]; intros c b; simpl; [exact I|].
  destruct (lt b _); [now left|].
  specialize (IH (PrimFloat.add c (PrimFloat.mul (ABTest.traffic_weight v)
                                                 1000)) b).
  destruct (ABTest.assignFrom _ b rest); [now right|exact I].
Qed.

Lemma buckets_below_1000 :
  forallb (fun b => lt (ABTest.number_of_Z (Z.of_nat b))
                       (PrimFloat.add 0 (PrimFloat.mul 1 1000)))
          (seq 0 1000)
  = true.
Proof. vm_compute. reflexivity. Qed.

Lemma first_variant_of_weight_1 first rest userHash :
  (0 <= userHash)%Z ->
  ABTest.traffic_weight first = 1%float ->
  ABTest.assignVariant (first :: rest) userHash = Some first.
Proof.
  intros Hpos Hw. unfold ABTest.assignVariant. cbv zeta.
  simpl ABTest.assignFrom. rewrite Hw.
  pose proof (Z.rem_bound_pos userHash 1000 Hpos ltac:(lia)) as B.
  pose proof buckets_below_1000 as F. rewrite forallb_forall in F.
  specialize (F (Z.to_nat (Z.rem userHash 1000))).
  rewrite Z2Nat.id in F by lia. rewrite F; [reflexivity|].
  apply in_seq. lia.
Qed.

(** X14 -- [assignVariant] returns one of the variants it is given, or
    [null]; [null] for an empty list.  When the first variant has traffic
    weight 1, every user hash that is not negative gets that variant,
    whatever variants follow. *)
Theorem assignVariant_chooses_a_variant variants userHash :
  match ABTest.assignVariant variants userHash with
  | Some variant => In variant variants
  | None => True
  end
  /\ ABTest.assignVariant [] userHash = None
  /\ forall first rest,
       (0 <= userHash)%Z ->
       ABTest.traffic_weight first = 1%float ->
       ABTest.assignVariant (first :: rest) userHash = Some first.
Proof.
  split; [apply assignFrom_member|]. split; [reflexivity|].
  intros first rest. apply first_variant_of_weight_1.
Qed.

Lemma assignVariant_chooses_a_variant_witness :
  let control :=
    {| ABTest.variant_id := "a"; ABTest.variant_name := "control";
       ABTest.traffic_weight := 1; ABTest.config := None |} in
  (0 <= ABTest.hashUserId "anonymous" "onboarding")%Z
  /\ ABTest.traffic_weight control = 1%float
  /\ ABTest.assignVariant [control] (ABTest.hashUserId "anonymous" "onboarding")
     = Some control.
Proof.
  cbv zeta.
  assert (H : (0 <= ABTest.hashUserId "anonymous" "onboarding")%Z)
    by (vm_compute; discriminate).
  split; [exact H|]. split; [reflexivity|].
  exact (proj2 (proj2 (assignVariant_chooses_a_variant
                         [] (ABTest.hashUserId "anonymous" "onboarding")))
           {| ABTest.variant_id := "a"; ABTest.variant_name := "control";
              ABTest.traffic_weight := 1; ABTest.config := None |}
           [] H eq_refl).
Defined.

(** ** Assignments *)

Lemma mapGet_mapSet_same {V : Type} (m : ABTest.StringMap V) key (v : V) :
  ABTest.mapGet (ABTest.mapSet m key v) key = Some v.
Proof.
  induction m as [|[k w] rest IH]; simpl.
  - now rewrite String.eqb_refl.
  - destruct (String.eqb k key) eqn:E; simpl; rewrite E; auto.
Qed.

Lemma mapGet_mapSet_other {V : Type} (m : ABTest.StringMap V) key other
      (v : V) :
  other <> key ->
  ABTest.mapGet (ABTest.mapSet m key v) other = ABTest.mapGet m other.
Proof.
  intros N. induction m as [|[k w] rest IH]; simpl.
  - destruct (String.eqb_spec key other); [congruence|reflexivity].
  - destruct (String.eqb_spec k key) as [->|Hk]; simpl.
    + destruct (String.eqb_spec key other); [congruence|reflexivity].
    + now rewrite IH.
Qed.

(** Comparisons of numbers, NaN included. *)

Lemma isNaN_Prim2SF (x : number) : isNaN x = true -> Prim2SF x = S754_nan.
Proof.
  unfold isNaN. rewrite FloatAxioms.eqb_spec. unfold SFeqb, SFcompare.
  destruct (Prim2SF x) as [[]|[]| |[] m e]; simpl; try discriminate; auto;
    rewrite Z.compare_refl, Pos.compare_cont_spec, Pos.compare_refl;
    discriminate.
Qed.

Lemma SFcompare_antisym (a b : spec_float) :
  SFcompare b a = option_map CompOpp (SFcompare a b).
Proof.
  destruct a as [sa|sa| |sa ma ea], b as [sb|sb| |sb mb eb]; simpl;
    try reflexivity; try (destruct sa; reflexivity);
    try (destruct sb; reflexivity); try (destruct sa, sb; reflexivity).
  f_equal. rewrite (Z.compare_antisym ea eb).
  pose proof (Pos.compare_cont_antisym ma mb Eq) as P. simpl in P.
  rewrite <- P.
  destruct sa, sb; simpl; try reflexivity;
    destruct (ea ?= eb)%Z; simpl; try reflexivity.
Qed.

(** [x <= y] excludes [y < x]; so does a NaN on either side. *)
Lemma not_before (x y : number) :
  PrimFloat.leb x y = true \/ isNaN x = true \/ isNaN y = true ->
  PrimFloat.ltb y x = false.
Proof.
  rewrite FloatAxioms.leb_spec, FloatAxioms.ltb_spec.
  unfold SFleb, SFltb. intros [H|[H|H]].
  - rewrite (SFcompare_antisym (Prim2SF x) (Prim2SF y)).
    destruct (SFcompare (Prim2SF x) (Prim2SF y)) as [[]|];
      try discriminate; reflexivity.
  - apply isNaN_Prim2SF in H. rewrite H.
    destruct (Prim2SF y) as [[]|[]| |[] m e]; reflexivity.
  - apply isNaN_Prim2SF in H. rewrite H. reflexivity.
Qed.

Lemma allocation_buckets :
  forallb (fun b =>
             negb (PrimFloat.leb (PrimFloat.mul 1 100)
                                 (ABTest.number_of_Z (Z.of_nat b)))
             && PrimFloat.leb (PrimFloat.mul 0 100)
                              (ABTest.number_of_Z (Z.of_nat b)))
          (seq 0 100)
  = true.
Proof. vm_compute. reflexivity. Qed.

Lemma allocation_bucket (userHash : Z) :
  (0 <= userHash)%Z ->
  PrimFloat.leb (PrimFloat.mul 1 100)
                (ABTest.number_of_Z (Z.rem userHash 100)) = false
  /\ PrimFloat.leb (PrimFloat.mul 0 100)
                   (ABTest.number_of_Z (Z.rem userHash 100)) = true.
Proof.
  intros Hpos.
  pose proof (Z.rem_bound_pos userHash 100 Hpos ltac:(lia)) as B.
  pose proof allocation_buckets as F. rewrite forallb_forall in F.
  specialize (F (Z.to_nat (Z.rem userHash 100))).
  rewrite Z2Nat.id in F by lia.
  assert (Hin : In (Z.to_nat (Z.rem userHash 100)) (seq 0 100))
    by (apply in_seq; lia).
  apply F, andb_prop in Hin. destruct Hin as [F1 F2].
  split; [now apply negb_true_iff|exact F2].
Qed.

Lemma hashUserId_nonneg (userId testName : string) :
  (0 <= ABTest.hashUserId userId testName)%Z.
Proof. apply Z.abs_nonneg. Qed.

Lemma mapGet_fold_mapSet (experiments : list ABTest.ABTestConfig) name :
  forall tests,
    ABTest.mapGet
      (fold_left (fun tests experiment =>
                    ABTest.mapSet tests (ABTest.test_name experiment)
                                  experiment)
                 experiments tests) name
    = match find (fun experiment =>
                    String.eqb (ABTest.test_name experiment) name)
                 (rev experiments) with
      | Some experiment => Some experiment
      | None => ABTest.mapGet tests name
      end.
Proof.
  induction experiments as [|e rest IH] using rev_ind; intros tests;
    [reflexivity|].
  rewrite fold_left_app, rev_app_distr. simpl.
  destruct (String.eqb_spec (ABTest.test_name e) name) as [<-|N].
  - apply mapGet_mapSet_same.
  - rewrite mapGet_mapSet_other by congruence. apply IH.
Qed.

Section AssignmentFacts.

Variable StringToNumber : string -> number.
Variable NumberToString : number -> string.
Variable BuiltinToString : string -> string.
Variable parseDate : string -> number.


(** What [getVariant] does to the service, on every path. *)
Lemma getVariant_cases now testName self :
  let outcome :=
    ABTest.getVariant StringToNumber NumberToString
        BuiltinToString parseDate now testName
                      self in
  ABTest.activeTests (snd (fst outcome)) = ABTest.activeTests self
  /\ ABTest.userAttributes (snd (fst outcome)) = ABTest.userAttributes self
  /\ ABTest.initialized (snd (fst outcome)) = ABTest.initialized self
  /\ (fst (fst outcome) = None /\ snd (fst outcome) = self
      \/ exists a,
          fst (fst outcome) = Some a
          /\ ABTest.initialized self = true
          /\ (ABTest.mapGet (ABTest.userAssignments self) testName = Some a
              /\ snd (fst outcome) = self /\ snd outcome = []
              \/ ABTest.mapGet (ABTest.userAssignments self) testName = None
                 /\ ABTest.userAssignments (snd (fst outcome))
                    = ABTest.mapSet (ABTest.userAssignments self) testName a)).
Proof.
  cbv zeta. unfold ABTest.getVariant.
  destruct (ABTest.initialized self) eqn:I; simpl negb; cbv iota;
    [|simpl; auto 6].
  destruct (ABTest.mapGet (ABTest.userAssignments self) testName)
    as [existing|] eqn:G.
  - simpl. repeat (split; [auto|]). right. exists existing. auto 8.
  - destruct (ABTest.mapGet (ABTest.activeTests self) testName)
      as [testConfig|]; [|simpl; auto 6].
    cbv zeta.
    destruct (lt now _ || gt now _ || negb _); [simpl; auto 6|].
    destruct (negb (ABTest.matchesTargetingRules _ _ _ _ _));
      [simpl; auto 6|].
    destruct (PrimFloat.leb _ _); [simpl; auto 6|].
    destruct (ABTest.assignVariant _ _) as [variant|]; [|simpl; auto 6].
    simpl. repeat (split; [auto|]). right. eexists.
    split; [reflexivity|]. split; [reflexivity|]. right.
    split; reflexivity.
Qed.

(** A stored assignment is what an initialised service answers. *)
Lemma getVariant_existing now testName self a :
  ABTest.initialized self = true ->
  ABTest.mapGet (ABTest.userAssignments self) testName = Some a ->
  ABTest.getVariant StringToNumber NumberToString
      BuiltinToString parseDate now testName self
  = (Some a, self, []).
Proof. intros I G. unfold ABTest.getVariant. now rewrite I, G. Qed.

(** The assignment [getVariant] answers with is stored afterwards. *)
Lemma getVariant_stored now testName self a :
  let outcome :=
    ABTest.getVariant StringToNumber NumberToString
        BuiltinToString parseDate now testName
                      self in
  fst (fst outcome) = Some a ->
  ABTest.initialized (snd (fst outcome)) = true
  /\ ABTest.mapGet (ABTest.userAssignments (snd (fst outcome))) testName
     = Some a.
Proof.
  cbv zeta. intros H.
  destruct (getVariant_cases now testName self) as (_ & _ & I & C).
  cbv zeta in *.
  destruct C as [[N _]|(b & S & Ht & C)]; [rewrite H in N; discriminate|].
  rewrite H in S. injection S as <-. split; [congruence|].
  destruct C as [(G & -> & _)|(_ & ->)]; [exact G|].
  apply mapGet_mapSet_same.
Qed.

(** What holds when [getVariant] answers with an assignment that was not
    stored before. *)
Lemma getVariant_fresh now testName self a :
  ABTest.mapGet (ABTest.userAssignments self) testName = None ->
  fst (fst (ABTest.getVariant StringToNumber NumberToString
      BuiltinToString parseDate
                              now testName self)) = Some a ->
  exists testConfig variant,
    ABTest.initialized self = true
    /\ ABTest.mapGet (ABTest.activeTests self) testName = Some testConfig
    /\ lt now (parseDate (ABTest.start_date testConfig)) = false
    /\ gt now (parseDate (ABTest.end_date testConfig)) = false
    /\ ABTest.status testConfig = "active"%string
    /\ ABTest.matchesTargetingRules StringToNumber NumberToString
        BuiltinToString self
         (ABTest.targeting_rules testConfig) = true
    /\ PrimFloat.leb
         (PrimFloat.mul (ABTest.traffic_allocation testConfig) 100)
         (ABTest.number_of_Z
            (Z.rem (ABTest.hashUserId
                      (ToString NumberToString
                          BuiltinToString (ABTest.getUserId self))
                      testName) 100)) = false
    /\ ABTest.assignVariant
         (ABTest.variants testConfig)
         (ABTest.hashUserId (ToString NumberToString
             BuiltinToString (ABTest.getUserId self))
                            testName) = Some variant
    /\ a = {| ABTest.Assignment.test_name := testName;
              ABTest.Assignment.variant_id := ABTest.variant_id variant;
              ABTest.Assignment.variant_name := ABTest.variant_name variant;
              ABTest.Assignment.assignment_timestamp := now;
              ABTest.Assignment.config := ABTest.config variant |}.
Proof.
  intros G. unfold ABTest.getVariant.
  destruct (ABTest.initialized self) eqn:I; simpl negb; cbv iota;
    [|simpl; discriminate].
  rewrite G.
  destruct (ABTest.mapGet (ABTest.activeTests self) testName)
    as [testConfig|] eqn:T; [|simpl; discriminate].
  cbv zeta.
  destruct (lt now _ || gt now _ || negb _) eqn:W; [simpl; discriminate|].
  apply orb_false_iff in W. destruct W as [W S].
  apply orb_false_iff in W. destruct W as [L R].
  apply negb_false_iff, String.eqb_eq in S.
  destruct (ABTest.matchesTargetingRules _ _ _ _ _) eqn:M; simpl negb;
    cbv iota; [|simpl; discriminate].
  destruct (PrimFloat.leb _ _) eqn:A; [simpl; discriminate|].
  destruct (ABTest.assignVariant _ _) as [variant|] eqn:V;
    [|simpl; discriminate].
  simpl. intros [= <-]. exists testConfig, variant. auto 12.
Qed.

(** The converse: when every condition holds, the user is assigned. *)
Lemma getVariant_assigns now testName self testConfig variant :
  ABTest.initialized self = true ->
  ABTest.mapGet (ABTest.userAssignments self) testName = None ->
  ABTest.mapGet (ABTest.activeTests self) testName = Some testConfig ->
  lt now (parseDate (ABTest.start_date testConfig)) = false ->
  gt now (parseDate (ABTest.end_date testConfig)) = false ->
  ABTest.status testConfig = "active"%string ->
  ABTest.matchesTargetingRules StringToNumber NumberToString
      BuiltinToString self
    (ABTest.targeting_rules testConfig) = true ->
  PrimFloat.leb
    (PrimFloat.mul (ABTest.traffic_allocation testConfig) 100)
    (ABTest.number_of_Z
       (Z.rem (ABTest.hashUserId
                 (ToString NumberToString
                     BuiltinToString (ABTest.getUserId self))
                 testName) 100)) = false ->
  ABTest.assignVariant
    (ABTest.variants testConfig)
    (ABTest.hashUserId (ToString NumberToString
        BuiltinToString (ABTest.getUserId self))
                       testName) = Some variant ->
  let a :=
    {| ABTest.Assignment.test_name := testName;
       ABTest.Assignment.variant_id := ABTest.variant_id variant;
       ABTest.Assignment.variant_name := ABTest.variant_name variant;
       ABTest.Assignment.assignment_timestamp := now;
       ABTest.Assignment.config := ABTest.config variant |} in
  let assignments :=
    ABTest.mapSet (ABTest.userAssignments self) testName a in
  ABTest.getVariant StringToNumber NumberToString
      BuiltinToString parseDate now testName self
  = (Some a,
     {| ABTest.userAssignments := assignments;
        ABTest.activeTests := ABTest.activeTests self;
        ABTest.userAttributes := ABTest.userAttributes self;
        ABTest.initialized := ABTest.initialized self |},
     [ABTest.SaveUserAssignments assignments;
      ABTest.TrackUserAction "ab_test_assignment"
        [("test_name"%string, JSString testName);
         ("variant_id"%string, JSString (ABTest.variant_id variant));
         ("variant_name"%string, JSString (ABTest.variant_name variant));
         ("assignment_timestamp"%string, JSNumber now)]]).
Proof.
  intros I G T L R S M A V. cbv zeta. unfold ABTest.getVariant.
  rewrite I, G, T. cbv zeta. rewrite L, R, S, M, A, V. reflexivity.
Qed.

(** X15 -- An assignment is permanent.  Once [getVariant] has answered with
    an assignment for a test, it answers with the same assignment, changing
    nothing and with no effect, at any later time and whatever has become of
    the active tests (paused, completed, removed) and of the user's
    attributes, as long as the assignments are kept. *)
Theorem assignment_is_permanent now testName self a :
  fst (fst (ABTest.getVariant StringToNumber NumberToString
      BuiltinToString parseDate
                              now testName self)) = Some a ->
  let self' :=
    snd (fst (ABTest.getVariant StringToNumber NumberToString
        BuiltinToString parseDate
                                now testName self)) in
  forall later tests attributes,
    let service :=
      {| ABTest.userAssignments := ABTest.userAssignments self';
         ABTest.activeTests := tests;
         ABTest.userAttributes := attributes;
         ABTest.initialized := true |} in
    ABTest.getVariant StringToNumber NumberToString BuiltinToString parseDate
                      later testName service
    = (Some a, service, []).
Proof.
  intros H self' later tests attributes service.
  apply getVariant_existing; [reflexivity|].
  exact (proj2 (getVariant_stored now testName self a H)).
Qed.

(** X16 -- [getVariant] for one test leaves the assignments of all other
    tests, the active tests, the user's attributes and the initialised flag
    as they were; and it answers [null], changing nothing, as long as the
    service is not initialised. *)
Theorem getVariant_touches_one_assignment now testName self :
  let outcome :=
    ABTest.getVariant StringToNumber NumberToString
        BuiltinToString parseDate now testName
                      self in
  (forall other,
      other <> testName ->
      ABTest.mapGet (ABTest.userAssignments (snd (fst outcome))) other
      = ABTest.mapGet (ABTest.userAssignments self) other)
  /\ ABTest.activeTests (snd (fst outcome)) = ABTest.activeTests self
  /\ ABTest.userAttributes (snd (fst outcome)) = ABTest.userAttributes self
  /\ ABTest.initialized (snd (fst outcome)) = ABTest.initialized self
  /\ (ABTest.initialized self = false ->
      fst (fst outcome) = None /\ snd (fst outcome) = self).
Proof.
  cbv zeta.
  destruct (getVariant_cases now testName self) as (T & A & I & C).
  cbv zeta in *. split; [|split; [exact T|split; [exact A|split; [exact I|]]]].
  - intros other N.
    destruct C as [[_ ->]|(b & _ & _ & [(_ & -> & _)|(_ & ->)])];
      try reflexivity.
    now apply mapGet_mapSet_other.
  - intros F. destruct C as [C|(b & _ & Ht & _)]; [exact C|congruence].
Qed.

(** X17 -- Full rollout.  For a test that is active, allocates all traffic
    (1), has no targeting rules and whose first variant has weight 1, every
    user of an initialised service without an assignment gets the first
    variant, stamped with the time of the call, stored and saved, provided
    the time is within the test's dates; a date that does not parse (NaN)
    sets no bound. *)
Theorem full_rollout_assigns_first_variant
        now testName self testConfig first rest :
  ABTest.initialized self = true ->
  ABTest.mapGet (ABTest.userAssignments self) testName = None ->
  ABTest.mapGet (ABTest.activeTests self) testName = Some testConfig ->
  ABTest.status testConfig = "active"%string ->
  ABTest.traffic_allocation testConfig = 1%float ->
  (ABTest.targeting_rules testConfig = None
   \/ ABTest.targeting_rules testConfig = Some []) ->
  ABTest.variants testConfig = first :: rest ->
  ABTest.traffic_weight first = 1%float ->
  (PrimFloat.leb (parseDate (ABTest.start_date testConfig)) now = true
   \/ isNaN (parseDate (ABTest.start_date testConfig)) = true) ->
  (PrimFloat.leb now (parseDate (ABTest.end_date testConfig)) = true
   \/ isNaN (parseDate (ABTest.end_date testConfig)) = true) ->
  let outcome :=
    ABTest.getVariant StringToNumber NumberToString
        BuiltinToString parseDate now testName
                      self in
  let a :=
    {| ABTest.Assignment.test_name := testName;
       ABTest.Assignment.variant_id := ABTest.variant_id first;
       ABTest.Assignment.variant_name := ABTest.variant_name first;
       ABTest.Assignment.assignment_timestamp := now;
       ABTest.Assignment.config := ABTest.config first |} in
  fst (fst outcome) = Some a
  /\ ABTest.mapGet (ABTest.userAssignments (snd (fst outcome))) testName
     = Some a
  /\ In (ABTest.SaveUserAssignments
           (ABTest.userAssignments (snd (fst outcome))))
        (snd outcome).
Proof.
  intros I G T S A M V W L R. cbv zeta.
  pose proof (hashUserId_nonneg
                (ToString NumberToString
                    BuiltinToString (ABTest.getUserId self)) testName)
    as Hpos.
  rewrite (getVariant_assigns now testName self testConfig first I G T).
  - simpl. split; [reflexivity|].
    split; [apply mapGet_mapSet_same|now left].
  - apply not_before. tauto.
  - apply not_before. tauto.
  - exact S.
  - destruct M as [-> | ->]; reflexivity.
  - rewrite A. exact (proj1 (allocation_bucket _ Hpos)).
  - rewrite V. now apply first_variant_of_weight_1.
Qed.

(** X18 -- No assignment is made, and nothing changes, for a user without an
    assignment when the service is not initialised, the test is not among
    the active tests, its status is not [active], the time is before its
    start or after its end, its traffic allocation is 0, it has no
    variants, or the user fails its targeting rules (which read the user's
    attributes, inherited properties included). *)
Theorem closed_test_assigns_nobody now testName self :
  ABTest.mapGet (ABTest.userAssignments self) testName = None ->
  (ABTest.initialized self = false
   \/ ABTest.mapGet (ABTest.activeTests self) testName = None
   \/ exists testConfig,
       ABTest.mapGet (ABTest.activeTests self) testName = Some testConfig
       /\ (ABTest.status testConfig <> "active"%string
           \/ lt now (parseDate (ABTest.start_date testConfig)) = true
           \/ gt now (parseDate (ABTest.end_date testConfig)) = true
           \/ ABTest.traffic_allocation testConfig = 0%float
           \/ ABTest.variants testConfig = []
           \/ ABTest.matchesTargetingRules
                StringToNumber NumberToString BuiltinToString self
                (ABTest.targeting_rules testConfig) = false)) ->
  let outcome :=
    ABTest.getVariant StringToNumber NumberToString
        BuiltinToString parseDate now testName
                      self in
  fst (fst outcome) = None /\ snd (fst outcome) = self.
Proof.
  intros G Closed. cbv zeta.
  destruct (getVariant_cases now testName self) as (_ & _ & _ & C).
  cbv zeta in C. destruct C as [C|(a & H & _)]; [exact C|]. exfalso.
  destruct (getVariant_fresh now testName self a G H)
    as (testConfig & variant & I & T & L & R & S & M & A & V & _).
  pose proof (hashUserId_nonneg
                (ToString NumberToString
                    BuiltinToString (ABTest.getUserId self)) testName)
    as Hpos.
  destruct Closed as [F|[F|(c & Tc & F)]]; try congruence.
  assert (c = testConfig) as -> by congruence.
  destruct F as [F|[F|[F|[F|[F|F]]]]]; try congruence.
  - rewrite F in A.
    rewrite (proj2 (allocation_bucket _ Hpos)) in A. discriminate.
  - rewrite F in V. discriminate.
Qed.

(** X19 -- Bucketing is consistent.  Two fresh assignments of the same user
    to the same test name, made at any two times by services whose copies
    of the test list the same variants, are to the same variant --- for
    instance before and after [clearAssignments]. *)
Theorem bucketing_is_consistent now later testName self self' a a' :
  ABTest.mapGet (ABTest.userAssignments self) testName = None ->
  ABTest.mapGet (ABTest.userAssignments self') testName = None ->
  ABTest.getUserId self' = ABTest.getUserId self ->
  option_map ABTest.variants
             (ABTest.mapGet (ABTest.activeTests self') testName)
  = option_map ABTest.variants
               (ABTest.mapGet (ABTest.activeTests self) testName) ->
  fst (fst (ABTest.getVariant StringToNumber NumberToString
      BuiltinToString parseDate
                              now testName self)) = Some a ->
  fst (fst (ABTest.getVariant StringToNumber NumberToString
      BuiltinToString parseDate
                              later testName self')) = Some a' ->
  ABTest.Assignment.variant_id a' = ABTest.Assignment.variant_id a
  /\ ABTest.Assignment.variant_name a' = ABTest.Assignment.variant_name a
  /\ ABTest.Assignment.config a' = ABTest.Assignment.config a
  /\ ABTest.Assignment.test_name a' = ABTest.Assignment.test_name a.
Proof.
  intros G G' U E H H'.
  destruct (getVariant_fresh now testName self a G H)
    as (c & v & _ & T & _ & _ & _ & _ & _ & V & ->).
  destruct (getVariant_fresh later testName self' a' G' H')
    as (c' & v' & _ & T' & _ & _ & _ & _ & _ & V' & ->).
  rewrite T, T' in E. simpl in E. injection E as E.
  rewrite U, E, V in V'. injection V' as <-. simpl. auto.
Qed.

(** X20 -- [getConfig] changes the service and has the effects of
    [getVariant] for the test.  Its value is the default unless the user's
    assignment has a configuration whose property of that name, its own or
    inherited, is neither [undefined] nor [null]; then it is that property,
    also when it is [false], 0, the empty string, or a function the
    configuration inherits (for a key such as [toString]). *)
Theorem getConfig_falls_back_to_default
        now testName configKey defaultValue self :
  let outcome :=
    ABTest.getConfig StringToNumber NumberToString
        BuiltinToString parseDate now testName
                     configKey defaultValue self in
  let assignment :=
    ABTest.getVariant StringToNumber NumberToString
        BuiltinToString parseDate now testName
                      self in
  snd (fst outcome) = snd (fst assignment)
  /\ snd outcome = snd assignment
  /\ (fst (fst outcome) = defaultValue
      \/ fst (fst outcome) <> JSUndefined /\ fst (fst outcome) <> JSNull)
  /\ (fst (fst assignment) = None -> fst (fst outcome) = defaultValue)
  /\ forall a,
       fst (fst assignment) = Some a ->
       match ABTest.Assignment.config a with
       | None => fst (fst outcome) = defaultValue
       | Some config =>
           (getProperty config configKey = JSUndefined
            \/ getProperty config configKey = JSNull ->
            fst (fst outcome) = defaultValue)
           /\ (getProperty config configKey <> JSUndefined ->
               getProperty config configKey <> JSNull ->
               fst (fst outcome) = getProperty config configKey)
       end.
Proof.
  cbv zeta. unfold ABTest.getConfig.
  destruct (ABTest.getVariant _ _ _ _ now testName self)
    as [[[a|] self'] effects]; simpl.
  - split; [reflexivity|]. split; [reflexivity|].
    destruct (ABTest.Assignment.config a) as [config|] eqn:C.
    + split; [|split; [discriminate|]].
      * destruct (getProperty config configKey); auto;
          right; split; discriminate.
      * intros b [= <-]. rewrite C.
        destruct (getProperty config configKey); split; intros;
          try reflexivity; try congruence;
          match goal with H : _ \/ _ |- _ => destruct H; discriminate end.
    + split; [now left|]. split; [discriminate|].
      intros b [= <-]. now rewrite C.
  - split; [reflexivity|]. split; [reflexivity|].
    split; [now left|]. split; [reflexivity|]. discriminate.
Qed.

(** X21 -- A user is in one variant of a test.  Once [isInVariant] has
    answered [true] for a variant name, it answers, at any later time,
    [true] for that name and [false] for every other, changing nothing. *)
Theorem user_is_in_one_variant now testName variantName self :
  fst (fst (ABTest.isInVariant StringToNumber NumberToString
      BuiltinToString parseDate
                               now testName variantName self)) = true ->
  let self' :=
    snd (fst (ABTest.isInVariant StringToNumber NumberToString
        BuiltinToString parseDate
                                 now testName variantName self)) in
  forall later other,
    ABTest.isInVariant StringToNumber NumberToString BuiltinToString parseDate
                       later testName other self'
    = (String.eqb variantName other, self', []).
Proof.
  unfold ABTest.isInVariant at 1 2.
  pose proof (getVariant_stored now testName self) as St. cbv zeta in St.
  destruct (ABTest.getVariant _ _ _ _ now testName self)
    as [[[a|] self1] effects]; simpl in *; [|discriminate].
  intros E later other. apply String.eqb_eq in E.
  destruct (St a eq_refl) as [I G].
  unfold ABTest.isInVariant.
  rewrite (getVariant_existing later testName self1 a I G).
  now rewrite E.
Qed.

(** X22 -- Conversions are attributed to the assigned variant.  After
    [getVariant] has answered with an assignment, [trackConversion] for the
    test sends one conversion event and one analytics action, both naming
    the assignment's variant, with value 1 when none is given.  After it
    has answered [null] on an initialised service, [trackConversion] only
    warns: nothing is sent. *)
Theorem conversion_names_assigned_variant
        now later testName metricName value self :
  let outcome :=
    ABTest.getVariant StringToNumber NumberToString
        BuiltinToString parseDate now testName
                      self in
  let effects :=
    ABTest.trackConversion later testName metricName value
                           (snd (fst outcome)) in
  match fst (fst outcome) with
  | Some a =>
      exists event metadata,
        effects = [ABTest.SendConversionEvent event;
                   ABTest.TrackUserAction "ab_test_conversion" metadata]
        /\ getProperty event "test_name" = JSString testName
        /\ getProperty event "variant_id"
           = JSString (ABTest.Assignment.variant_id a)
        /\ getProperty event "value"
           = JSNumber (match value with Some v => v | None => 1%float end)
        /\ getProperty event "timestamp" = JSNumber later
        /\ getProperty metadata "variant_id"
           = JSString (ABTest.Assignment.variant_id a)
        /\ getProperty metadata "variant_name"
           = JSString (ABTest.Assignment.variant_name a)
  | None =>
      ABTest.initialized self = true ->
      exists message, effects = [ABTest.Warn message]
  end.
Proof.
  cbv zeta.
  pose proof (getVariant_stored now testName self) as St. cbv zeta in St.
  destruct (getVariant_cases now testName self) as (_ & _ & _ & C).
  cbv zeta in C.
  destruct (fst (fst (ABTest.getVariant _ _ _ _ now testName self)))
    as [a|] eqn:H.
  - destruct (St a eq_refl) as [_ G]. unfold ABTest.trackConversion.
    rewrite G. do 2 eexists. split; [reflexivity|].
    repeat split; reflexivity.
  - intros I. destruct C as [[_ ->]|(b & S & _)]; [|discriminate].
    unfold ABTest.trackConversion.
    destruct (ABTest.mapGet (ABTest.userAssignments self) testName)
      as [existing|] eqn:G; [|eauto].
    rewrite (getVariant_existing now testName self existing I G) in H.
    discriminate.
Qed.

End AssignmentFacts.

(** X23 -- A refresh replaces the active tests and nothing else.  A response
    without [experiments] changes nothing.  Otherwise the active tests are
    exactly those of the response --- under each name the last experiment of
    that name, and no test from before --- while the user's assignments,
    attributes and the initialised flag are kept. *)
Theorem refresh_replaces_active_tests experiments self :
  ABTest.storeExperiments None self = self
  /\ let self' := ABTest.storeExperiments (Some experiments) self in
     ABTest.userAssignments self' = ABTest.userAssignments self
     /\ ABTest.userAttributes self' = ABTest.userAttributes self
     /\ ABTest.initialized self' = ABTest.initialized self
     /\ forall name,
          ABTest.mapGet (ABTest.activeTests self') name
          = find (fun experiment =>
                    String.eqb (ABTest.test_name experiment) name)
                 (rev experiments).
Proof.
  split; [reflexivity|]. cbv zeta. simpl.
  repeat (split; [reflexivity|]).
  intros name. rewrite mapGet_fold_mapSet.
  now destruct (find _ (rev experiments)).
Qed.

(** ** Inherited properties *)

(** What [object[key]] finds for a key the object does not have itself. *)
Lemma getProperty_inherited (key : string) :
  getProperty [] key = inherited key
  /\ getProperty [] "toString" = JSBuiltin "toString"
  /\ getProperty [] "constructor" = JSBuiltin "constructor"
  /\ getProperty [] "user_id" = JSUndefined
  /\ getProperty [] "impossibleSpeed" = JSUndefined
  /\ getProperty [] "tilesPerMinute" = JSUndefined
  /\ getProperty [("toString"%string, JSNull)] "toString" = JSNull.
Proof. repeat split. Qed.

(** A rule on an attribute that every attributes object inherits: the rule
    [constructor not_equals undefined] holds of a user without attributes,
    who is assigned. *)
Lemma rule_on_inherited_attribute :
  ABTest.matchesRule
    ABTestExample.StringToNumber ABTestExample.NumberToString
    ABTestExample.BuiltinToString
    (ABTestExample.targetedService ABTestExample.hasConstructor)
    ABTestExample.hasConstructor = true
  /\ fst (fst (ABTestExample.getVariant
                 ABTestExample.now "onboarding"
                 (ABTestExample.targetedService ABTestExample.hasConstructor)))
     = Some ABTestExample.assigned.
Proof. split; vm_compute; reflexivity. Qed.

(** ** The theorems on a service with one test *)

Lemma assignment_is_permanent_witness :
  let first :=
    ABTestExample.getVariant ABTestExample.now "onboarding"
                             ABTestExample.service in
  let service :=
    {| ABTest.userAssignments := ABTest.userAssignments (snd (fst first));
       ABTest.activeTests := [];
       ABTest.userAttributes := [];
       ABTest.initialized := true |} in
  fst (fst first) = Some ABTestExample.assigned
  /\ ABTestExample.getVariant ABTestExample.later "onboarding" service
     = (Some ABTestExample.assigned, service, []).
Proof.
  cbv zeta.
  assert (H : fst (fst (ABTestExample.getVariant
                          ABTestExample.now "onboarding"
                          ABTestExample.service))
              = Some ABTestExample.assigned) by (vm_compute; reflexivity).
  split; [exact H|].
  exact (assignment_is_permanent
           ABTestExample.StringToNumber ABTestExample.NumberToString
           ABTestExample.BuiltinToString
           ABTestExample.parseDate ABTestExample.now "onboarding"
           ABTestExample.service ABTestExample.assigned H
           ABTestExample.later [] []).
Defined.

Lemma getVariant_touches_one_assignment_witness :
  "checkout"%string <> "onboarding"%string
  /\ ABTest.mapGet
       (ABTest.userAssignments
          (snd (fst (ABTestExample.getVariant
                       ABTestExample.now "onboarding"
                       ABTestExample.service)))) "checkout"
     = ABTest.mapGet (ABTest.userAssignments ABTestExample.service)
                     "checkout"
  /\ ABTest.initialized ABTestExample.uninitialized = false
  /\ fst (fst (ABTestExample.getVariant ABTestExample.now "onboarding"
                                        ABTestExample.uninitialized))
     = None
  /\ snd (fst (ABTestExample.getVariant ABTestExample.now "onboarding"
                                        ABTestExample.uninitialized))
     = ABTestExample.uninitialized.
Proof.
  assert (N : "checkout"%string <> "onboarding"%string) by discriminate.
  split; [exact N|]. split.
  - exact (proj1 (getVariant_touches_one_assignment
                    ABTestExample.StringToNumber ABTestExample.NumberToString
           ABTestExample.BuiltinToString
                    ABTestExample.parseDate ABTestExample.now "onboarding"
                    ABTestExample.service) "checkout"%string N).
  - split; [reflexivity|].
    exact (proj2 (proj2 (proj2 (proj2
             (getVariant_touches_one_assignment
                ABTestExample.StringToNumber ABTestExample.NumberToString
           ABTestExample.BuiltinToString
                ABTestExample.parseDate ABTestExample.now "onboarding"
                ABTestExample.uninitialized)))) eq_refl).
Defined.

Lemma full_rollout_assigns_first_variant_witness :
  ABTest.initialized ABTestExample.service = true
  /\ ABTest.mapGet (ABTest.activeTests ABTestExample.service) "onboarding"
     = Some ABTestExample.onboarding
  /\ PrimFloat.leb (ABTestExample.parseDate
                      (ABTest.start_date ABTestExample.onboarding))
                   ABTestExample.now = true
  /\ PrimFloat.leb ABTestExample.now
                   (ABTestExample.parseDate
                      (ABTest.end_date ABTestExample.onboarding)) = true
  /\ fst (fst (ABTestExample.getVariant ABTestExample.now "onboarding"
                                        ABTestExample.service))
     = Some ABTestExample.assigned.
Proof.
  repeat (split; [reflexivity|]).
  exact (proj1 (full_rollout_assigns_first_variant
                  ABTestExample.StringToNumber ABTestExample.NumberToString
           ABTestExample.BuiltinToString
                  ABTestExample.parseDate ABTestExample.now "onboarding"
                  ABTestExample.service ABTestExample.onboarding
                  ABTestExample.control []
                  eq_refl eq_refl eq_refl eq_refl eq_refl
                  (or_introl eq_refl) eq_refl eq_refl
                  (or_introl eq_refl) (or_introl eq_refl))).
Defined.

Lemma closed_test_assigns_nobody_witness :
  ABTest.mapGet (ABTest.userAssignments ABTestExample.pausedService)
                "onboarding" = None
  /\ ABTest.mapGet (ABTest.activeTests ABTestExample.pausedService)
                   "onboarding" = Some ABTestExample.paused
  /\ ABTest.status ABTestExample.paused <> "active"%string
  /\ fst (fst (ABTestExample.getVariant ABTestExample.now "onboarding"
                                        ABTestExample.pausedService))
     = None
  /\ snd (fst (ABTestExample.getVariant ABTestExample.now "onboarding"
                                        ABTestExample.pausedService))
     = ABTestExample.pausedService
  /\ ABTest.matchesTargetingRules
       ABTestExample.StringToNumber ABTestExample.NumberToString
       ABTestExample.BuiltinToString
       (ABTestExample.targetedService ABTestExample.aboveLevel5)
       (ABTest.targeting_rules
          (ABTestExample.targeted ABTestExample.aboveLevel5)) = false
  /\ fst (fst (ABTestExample.getVariant
                 ABTestExample.now "onboarding"
                 (ABTestExample.targetedService ABTestExample.aboveLevel5)))
     = None.
Proof.
  assert (S : ABTest.status ABTestExample.paused <> "active"%string)
    by discriminate.
  split; [reflexivity|]. split; [reflexivity|]. split; [exact S|].
  split; [|split]; [| |split; [reflexivity|]].
  - exact (proj1 (closed_test_assigns_nobody
                    ABTestExample.StringToNumber ABTestExample.NumberToString
                    ABTestExample.BuiltinToString
                    ABTestExample.parseDate ABTestExample.now "onboarding"
                    ABTestExample.pausedService eq_refl
                    (or_intror (or_intror
                       (ex_intro _ ABTestExample.paused
                          (conj eq_refl (or_introl S))))))).
  - exact (proj2 (closed_test_assigns_nobody
                    ABTestExample.StringToNumber ABTestExample.NumberToString
                    ABTestExample.BuiltinToString
                    ABTestExample.parseDate ABTestExample.now "onboarding"
                    ABTestExample.pausedService eq_refl
                    (or_intror (or_intror
                       (ex_intro _ ABTestExample.paused
                          (conj eq_refl (or_introl S))))))).
  - exact (proj1 (closed_test_assigns_nobody
                    ABTestExample.StringToNumber ABTestExample.NumberToString
                    ABTestExample.BuiltinToString
                    ABTestExample.parseDate ABTestExample.now "onboarding"
                    (ABTestExample.targetedService ABTestExample.aboveLevel5)
                    eq_refl
                    (or_intror (or_intror
                       (ex_intro _
                          (ABTestExample.targeted ABTestExample.aboveLevel5)
                          (conj eq_refl
                             (or_intror (or_intror (or_intror (or_intror
                                (or_intror eq_refl))))))))))).
Defined.

Lemma bucketing_is_consistent_witness :
  let first :=
    ABTestExample.getVariant ABTestExample.now "onboarding"
                             ABTestExample.service in
  let cleared := fst (ABTest.clearAssignments (snd (fst first))) in
  let second :=
    ABTestExample.getVariant ABTestExample.soon "onboarding" cleared in
  ABTest.mapGet (ABTest.userAssignments ABTestExample.service) "onboarding"
  = None
  /\ ABTest.mapGet (ABTest.userAssignments cleared) "onboarding" = None
  /\ fst (fst first) = Some ABTestExample.assigned
  /\ fst (fst second) = Some ABTestExample.reassigned
  /\ ABTest.Assignment.variant_id ABTestExample.reassigned
     = ABTest.Assignment.variant_id ABTestExample.assigned.
Proof.
  cbv zeta.
  assert (H : fst (fst (ABTestExample.getVariant
                          ABTestExample.now "onboarding"
                          ABTestExample.service))
              = Some ABTestExample.assigned) by (vm_compute; reflexivity).
  assert (H' : fst (fst (ABTestExample.getVariant
                           ABTestExample.soon "onboarding"
                           (fst (ABTest.clearAssignments
                                   (snd (fst (ABTestExample.getVariant
                                                ABTestExample.now
                                                "onboarding"
                                                ABTestExample.service)))))))
               = Some ABTestExample.reassigned)
    by (vm_compute; reflexivity).
  split; [reflexivity|]. split; [reflexivity|].
  split; [exact H|]. split; [exact H'|].
  exact (proj1 (bucketing_is_consistent
                  ABTestExample.StringToNumber ABTestExample.NumberToString
           ABTestExample.BuiltinToString
                  ABTestExample.parseDate
                  ABTestExample.now ABTestExample.soon "onboarding"
                  ABTestExample.service
                  (fst (ABTest.clearAssignments
                          (snd (fst (ABTestExample.getVariant
                                       ABTestExample.now "onboarding"
                                       ABTestExample.service)))))
                  ABTestExample.assigned ABTestExample.reassigned
                  eq_refl eq_refl eq_refl eq_refl H H')).
Defined.

Lemma getConfig_falls_back_to_default_witness :
  fst (fst (ABTestExample.getVariant ABTestExample.now "onboarding"
                                     ABTestExample.service))
  = Some ABTestExample.assigned
  /\ getProperty [("button"%string, JSString "green")] "button"
     <> JSUndefined
  /\ getProperty [("button"%string, JSString "green")] "button" <> JSNull
  /\ fst (fst (ABTest.getConfig
                 ABTestExample.StringToNumber ABTestExample.NumberToString
                 ABTestExample.BuiltinToString
                 ABTestExample.parseDate ABTestExample.now
                 "onboarding" "button" (JSString "blue")
                 ABTestExample.service))
     = JSString "green"
  /\ fst (fst (ABTest.getConfig
                 ABTestExample.StringToNumber ABTestExample.NumberToString
                 ABTestExample.BuiltinToString
                 ABTestExample.parseDate ABTestExample.now
                 "onboarding" "colour" (JSString "blue")
                 ABTestExample.service))
     = JSString "blue"
  /\ fst (fst (ABTest.getConfig
                 ABTestExample.StringToNumber ABTestExample.NumberToString
                 ABTestExample.BuiltinToString
                 ABTestExample.parseDate ABTestExample.now
                 "onboarding" "toString" (JSString "blue")
                 ABTestExample.service))
     = JSBuiltin "toString".
Proof.
  assert (H : fst (fst (ABTestExample.getVariant
                          ABTestExample.now "onboarding"
                          ABTestExample.service))
              = Some ABTestExample.assigned) by (vm_compute; reflexivity).
  assert (U : getProperty [("button"%string, JSString "green")] "button"
              <> JSUndefined) by discriminate.
  assert (N : getProperty [("button"%string, JSString "green")] "button"
              <> JSNull) by discriminate.
  assert (U' : getProperty [("button"%string, JSString "green")] "toString"
               <> JSUndefined) by discriminate.
  assert (N' : getProperty [("button"%string, JSString "green")] "toString"
               <> JSNull) by discriminate.
  split; [exact H|]. split; [exact U|]. split; [exact N|].
  split; [|split].
  - exact (proj2 (proj2 (proj2 (proj2 (proj2
             (getConfig_falls_back_to_default
                ABTestExample.StringToNumber ABTestExample.NumberToString
                ABTestExample.BuiltinToString
                ABTestExample.parseDate ABTestExample.now
                "onboarding" "button" (JSString "blue")
                ABTestExample.service))))
             ABTestExample.assigned H) U N).
  - exact (proj1 (proj2 (proj2 (proj2 (proj2
             (getConfig_falls_back_to_default
                ABTestExample.StringToNumber ABTestExample.NumberToString
                ABTestExample.BuiltinToString
                ABTestExample.parseDate ABTestExample.now
                "onboarding" "colour" (JSString "blue")
                ABTestExample.service))))
             ABTestExample.assigned H) (or_introl eq_refl)).
  - exact (proj2 (proj2 (proj2 (proj2 (proj2
             (getConfig_falls_back_to_default
                ABTestExample.StringToNumber ABTestExample.NumberToString
                ABTestExample.BuiltinToString
                ABTestExample.parseDate ABTestExample.now
                "onboarding" "toString" (JSString "blue")
                ABTestExample.service))))
             ABTestExample.assigned H) U' N').
Defined.

Lemma user_is_in_one_variant_witness :
  let first :=
    ABTest.isInVariant
      ABTestExample.StringToNumber ABTestExample.NumberToString
           ABTestExample.BuiltinToString
      ABTestExample.parseDate ABTestExample.now "onboarding" "control"
      ABTestExample.service in
  fst (fst first) = true
  /\ ABTest.isInVariant
       ABTestExample.StringToNumber ABTestExample.NumberToString
           ABTestExample.BuiltinToString
       ABTestExample.parseDate ABTestExample.later "onboarding" "treatment"
       (snd (fst first))
     = (false, snd (fst first), []).
Proof.
  cbv zeta. split; [reflexivity|].
  exact (user_is_in_one_variant
           ABTestExample.StringToNumber ABTestExample.NumberToString
           ABTestExample.BuiltinToString
           ABTestExample.parseDate ABTestExample.now "onboarding" "control"
           ABTestExample.service eq_refl ABTestExample.later
           "treatment"%string).
Defined.

Lemma conversion_names_assigned_variant_witness :
  ABTest.initialized ABTestExample.pausedService = true
  /\ exists message,
       ABTest.trackConversion
         ABTestExample.later "onboarding" "purchase" None
         (snd (fst (ABTestExample.getVariant
                      ABTestExample.now "onboarding"
                      ABTestExample.pausedService)))
       = [ABTest.Warn message].
Proof.
  split; [reflexivity|].
  exact (conversion_names_assigned_variant
           ABTestExample.StringToNumber ABTestExample.NumberToString
           ABTestExample.BuiltinToString
           ABTestExample.parseDate ABTestExample.now ABTestExample.later
           "onboarding" "purchase" None ABTestExample.pausedService
           eq_refl).
Defined.
